(** * vmware-wayland-clipboard-bridge: the synchronization engine of main.go

    A shallow embedding of [ClipboardManager] (main.go): the four clipboard
    adapters, one [syncClipboards] cycle, the [start] loop and [main].
    Go strings are byte strings and are modelled by [string]; Go [int] values
    are modelled by [Z].  External processes ([wl-paste], [wl-copy], [xclip])
    are answered by an oracle, and every process started and every line logged
    is recorded in a trace. *)

From Stdlib Require Import ZArith List String Ascii Bool Lia.
Import ListNotations.
Open Scope string_scope.
Open Scope list_scope.
Open Scope Z_scope.

(* ================================================================== *)
(** ** crypto/sha256 and the [%x] verb, as used by [hash] *)

Module SHA256.

Definition word_mod : Z := 2 ^ 32.

Definition add32 (a b : Z) : Z := (a + b) mod word_mod.

Definition rotr (n x : Z) : Z :=
  (Z.lor (Z.shiftr x n) (Z.shiftl x (32 - n))) mod word_mod.

Definition not32 (x : Z) : Z := Z.lxor x (word_mod - 1).

Definition Ch (x y z : Z) : Z := Z.lxor (Z.land x y) (Z.land (not32 x) z).
Definition Maj (x y z : Z) : Z :=
  Z.lxor (Z.lxor (Z.land x y) (Z.land x z)) (Z.land y z).
Definition bsig0 (x : Z) : Z := Z.lxor (Z.lxor (rotr 2 x) (rotr 13 x)) (rotr 22 x).
Definition bsig1 (x : Z) : Z := Z.lxor (Z.lxor (rotr 6 x) (rotr 11 x)) (rotr 25 x).
Definition ssig0 (x : Z) : Z := Z.lxor (Z.lxor (rotr 7 x) (rotr 18 x)) (Z.shiftr x 3).
Definition ssig1 (x : Z) : Z := Z.lxor (Z.lxor (rotr 17 x) (rotr 19 x)) (Z.shiftr x 10).

(** The constants of FIPS 180-4, from the primes: the first 32 bits of the
    fractional parts of the cube roots of the first sixty-four primes, and
    of the square roots of the first eight. *)
Definition is_prime (n : nat) : bool :=
  forallb (fun d => negb (Nat.eqb (Nat.modulo n d) 0)) (seq 2 (n - 2)).

Definition primes : list Z :=
  Eval vm_compute in map Z.of_nat (filter is_prime (seq 2 310)).

Fixpoint cbrt_between (fuel : nat) (lo hi n : Z) : Z :=
  match fuel with
  | O => lo
  | S fuel' =>
      let mid := (lo + hi) / 2 in
      if mid * mid * mid <=? n
      then cbrt_between fuel' mid hi n
      else cbrt_between fuel' lo mid n
  end.

Definition cbrt (n : Z) : Z := cbrt_between 40 0 (2 ^ 36) n.

Definition K : list Z :=
  Eval vm_compute in map (fun p => cbrt (p * 2 ^ 96) mod word_mod) primes.

(** The eight working words of the digest. *)
Record digest : Type := mkDigest
  { h0 : Z; h1 : Z; h2 : Z; h3 : Z; h4 : Z; h5 : Z; h6 : Z; h7 : Z }.

Definition frac_sqrt (p : Z) : Z := Z.sqrt (p * 2 ^ 64) mod word_mod.

Definition init : digest :=
  Eval vm_compute in
    mkDigest (frac_sqrt 2) (frac_sqrt 3) (frac_sqrt 5) (frac_sqrt 7)
             (frac_sqrt 11) (frac_sqrt 13) (frac_sqrt 17) (frac_sqrt 19).

(** The [n] low bytes of [x], most significant first. *)
Definition be_bytes (n : nat) (x : Z) : list Z :=
  map (fun i => (Z.shiftr x (8 * Z.of_nat i)) mod 256) (rev (seq 0 n)).

(** Padding: the message, 0x80, zero bytes up to 56 mod 64, then the bit
    length as a 64-bit big-endian integer. *)
Definition pad (msg : list Z) : list Z :=
  let len := Z.of_nat (List.length msg) in
  let zeros := Z.to_nat ((55 - len) mod 64) in
  msg ++ [0x80] ++ repeat 0 zeros ++ be_bytes 8 ((8 * len) mod 2 ^ 64).

Fixpoint words (bs : list Z) : list Z :=
  match bs with
  | a :: b :: c :: d :: rest =>
      (Z.shiftl a 24 + Z.shiftl b 16 + Z.shiftl c 8 + d) :: words rest
  | _ => []
  end.

(** Message schedule: [n] further words from a sliding window of sixteen. *)
Fixpoint schedule (n : nat) (win : list Z) : list Z :=
  match n with
  | O => []
  | S n' =>
      let w := add32 (add32 (ssig1 (nth 14 win 0)) (nth 9 win 0))
                     (add32 (ssig0 (nth 1 win 0)) (nth 0 win 0)) in
      w :: schedule n' (tl win ++ [w])
  end.

Definition round (s : digest) (kw : Z * Z) : digest :=
  let t1 := add32 (add32 (add32 (h7 s) (bsig1 (h4 s)))
                         (add32 (Ch (h4 s) (h5 s) (h6 s)) (fst kw))) (snd kw) in
  let t2 := add32 (bsig0 (h0 s)) (Maj (h0 s) (h1 s) (h2 s)) in
  mkDigest (add32 t1 t2) (h0 s) (h1 s) (h2 s)
           (add32 (h3 s) t1) (h4 s) (h5 s) (h6 s).

Definition block (s : digest) (m : list Z) : digest :=
  let w := m ++ schedule 48 m in
  let r := fold_left round (combine K w) s in
  mkDigest (add32 (h0 s) (h0 r)) (add32 (h1 s) (h1 r))
           (add32 (h2 s) (h2 r)) (add32 (h3 s) (h3 r))
           (add32 (h4 s) (h4 r)) (add32 (h5 s) (h5 r))
           (add32 (h6 s) (h6 r)) (add32 (h7 s) (h7 r)).

Fixpoint blocks (n : nat) (s : digest) (ws : list Z) : digest :=
  match n with
  | O => s
  | S n' => blocks n' (block s (firstn 16 ws)) (skipn 16 ws)
  end.

(** [sha256.Sum256]: the 32 bytes of the digest. *)
Definition Sum256 (msg : list Z) : list Z :=
  let ws := words (pad msg) in
  let d := blocks (List.length ws / 16) init ws in
  be_bytes 4 (h0 d) ++ be_bytes 4 (h1 d) ++ be_bytes 4 (h2 d) ++
  be_bytes 4 (h3 d) ++ be_bytes 4 (h4 d) ++ be_bytes 4 (h5 d) ++
  be_bytes 4 (h6 d) ++ be_bytes 4 (h7 d).

End SHA256.

(** Lower-case hexadecimal, two digits per byte: [fmt.Sprintf("%x", h)]. *)
Definition hex_digit (d : Z) : ascii :=
  if d <? 10 then ascii_of_nat (Z.to_nat (48 + d))
  else ascii_of_nat (Z.to_nat (87 + d)).

Fixpoint sprintf_x (bs : list Z) : string :=
  match bs with
  | [] => EmptyString
  | b :: rest => String (hex_digit (b / 16)) (String (hex_digit (b mod 16)) (sprintf_x rest))
  end.

Definition bytes_of_string (s : string) : list Z :=
  map (fun c => Z.of_nat (nat_of_ascii c)) (list_ascii_of_string s).

(** [hash] (main.go:93): the SHA-256 of the content, in hexadecimal. *)
Definition hash (content : string) : string :=
  sprintf_x (SHA256.Sum256 (bytes_of_string content)).

(* ================================================================== *)
(** ** Configuration and the manager (main.go:21-53) *)

Record Timeouts : Type := mkTimeouts
  { CommandTimeout : Z;      (* seconds *)
    MaxClipboardSize : Z }.  (* bytes *)

Record SyncConfig : Type := mkSyncConfig
  { IntervalMs : Z;
    EnableLogging : bool }.

Record LoggingConfig : Type := mkLoggingConfig
  { Verbose : bool;
    LogFile : string }.      (* empty = stdout *)

(** The field [Timeouts] carries an underscore: its type has the name. *)
Record Config : Type := mkConfig
  { Timeouts_ : Timeouts;
    Sync : SyncConfig;
    Logging : LoggingConfig }.

(** Where [logWriter] points: [os.Stdout] or the file opened for appending. *)
Inductive WriteCloser : Type :=
| Stdout
| File (path : string).

(** A Go [error]: [None] is [nil]. *)
Definition error : Type := option string.

(** [time.Duration] is an [int64] count of nanoseconds. *)
Definition int64 (z : Z) : Z := (z + 2 ^ 63) mod 2 ^ 64 - 2 ^ 63.
Definition Millisecond : Z := 1000000.
Definition Second : Z := 1000000000.

(** The [logger] field writes to [logWriter] and is not kept apart. *)
Record ClipboardManager : Type := mkClipboardManager
  { lastWaylandHash : string;
    lastX11Hash : string;
    syncInterval : Z;
    commandTimeout : Z;
    maxClipboardSize : Z;
    enableLogging : bool;
    logWriter : WriteCloser }.

Definition set_lastWaylandHash (cm : ClipboardManager) (h : string) : ClipboardManager :=
  mkClipboardManager h (lastX11Hash cm) (syncInterval cm) (commandTimeout cm)
                     (maxClipboardSize cm) (enableLogging cm) (logWriter cm).

Definition set_lastX11Hash (cm : ClipboardManager) (h : string) : ClipboardManager :=
  mkClipboardManager (lastWaylandHash cm) h (syncInterval cm) (commandTimeout cm)
                     (maxClipboardSize cm) (enableLogging cm) (logWriter cm).

(* ================================================================== *)
(** ** External processes, the log, and the trace *)

(** The four command lines the manager runs. *)
Inductive Tool : Type :=
| WlPaste    (* wl-paste -t text/plain *)
| WlCopy     (* wl-copy -t text/plain *)
| XclipOut   (* xclip -selection clipboard -o *)
| XclipIn.   (* xclip -selection clipboard -i *)

(** What [cmd.Run()] under [context.WithTimeout] came to: success with the
    captured standard output, the deadline exceeded, or another failure. *)
Inductive RunResult : Type :=
| RunOk (stdout : string)
| RunDeadline
| RunFailed (msg : string).

(** The answers of the outside world during one cycle (each command line is
    run at most once per cycle). *)
Definition Oracle : Type := Tool -> RunResult.

Inductive Arg : Type :=
| ArgInt (n : Z)
| ArgStr (s : string).

Inductive Event : Type :=
| Exec (tool : Tool) (stdin : string)          (* a process was started *)
| Printf (format : string) (args : list Arg)   (* cm.logger.Printf *)
| Fprintf (format : string) (args : list Arg)  (* to os.Stderr *)
| Close (w : WriteCloser).

(** Computations that consult the oracle and append to the trace. *)
Definition IO (A : Type) : Type := Oracle -> A * list Event.

Definition ret {A : Type} (a : A) : IO A := fun _ => (a, []).

Definition bind {A B : Type} (m : IO A) (k : A -> IO B) : IO B :=
  fun o => let (a, t1) := m o in
           let (b, t2) := k a o in
           (b, t1 ++ t2).

Declare Scope io_scope.
Delimit Scope io_scope with io.
Notation "x <- m ;; k" := (bind m (fun x => k))
  (at level 100, m at next level, right associativity) : io_scope.
Notation "m ;;; k" := (bind m (fun _ => k))
  (at level 100, k at level 200, right associativity) : io_scope.
Open Scope io_scope.

(** [cmd.Run()] of a command line with the given standard input. *)
Definition Run (tool : Tool) (stdin : string) : IO RunResult :=
  fun o => (o tool, [Exec tool stdin]).

Definition emit (e : Event) : IO unit := fun _ => (tt, [e]).

Definition len (s : string) : Z := Z.of_nat (String.length s).

(** [logf] (main.go:266): logs only if verbose is enabled. *)
Definition logf (cm : ClipboardManager) (format : string) (v : list Arg) : IO unit :=
  if enableLogging cm then emit (Printf format v) else ret tt.

(* ================================================================== *)
(** ** The adapters (main.go:98-195) *)

Definition getWaylandClipboard (cm : ClipboardManager) : IO (string * error) :=
  r <- Run WlPaste "" ;;
  match r with
  | RunDeadline => logf cm "warning: wl-paste timeout" [] ;;; ret ("", None)
  | RunFailed _ => ret ("", None)
  | RunOk content =>
      if len content >? maxClipboardSize cm then
        logf cm "warning: wayland clipboard exceeds size limit (%d > %d bytes)"
             [ArgInt (len content); ArgInt (maxClipboardSize cm)] ;;;
        ret ("", None)
      else ret (content, None)
  end.

Definition setWaylandClipboard (cm : ClipboardManager) (content : string) : IO error :=
  if len content >? maxClipboardSize cm then
    logf cm "error: content exceeds max size, skipping wayland sync (%d > %d bytes)"
         [ArgInt (len content); ArgInt (maxClipboardSize cm)] ;;;
    ret None
  else
    r <- Run WlCopy content ;;
    match r with
    | RunDeadline => logf cm "warning: wl-copy timeout" [] ;;; ret None
    | RunFailed err => logf cm "warning: failed to set wayland clipboard: %v" [ArgStr err] ;;; ret None
    | RunOk _ => ret None
    end.

Definition getX11Clipboard (cm : ClipboardManager) : IO (string * error) :=
  r <- Run XclipOut "" ;;
  match r with
  | RunDeadline => logf cm "warning: xclip read timeout" [] ;;; ret ("", None)
  | RunFailed _ => ret ("", None)
  | RunOk content =>
      if len content >? maxClipboardSize cm then
        logf cm "warning: x11 clipboard exceeds size limit (%d > %d bytes)"
             [ArgInt (len content); ArgInt (maxClipboardSize cm)] ;;;
        ret ("", None)
      else ret (content, None)
  end.

Definition setX11Clipboard (cm : ClipboardManager) (content : string) : IO error :=
  if len content >? maxClipboardSize cm then
    logf cm "error: content exceeds max size, skipping x11 sync (%d > %d bytes)"
         [ArgInt (len content); ArgInt (maxClipboardSize cm)] ;;;
    ret None
  else
    r <- Run XclipIn content ;;
    match r with
    | RunDeadline => logf cm "warning: xclip write timeout" [] ;;; ret None
    | RunFailed err => logf cm "warning: failed to set x11 clipboard: %v" [ArgStr err] ;;; ret None
    | RunOk _ => ret None
    end.

(** Go's [a != b] on strings. *)
Definition neq (a b : string) : bool := negb (String.eqb a b).

(* ================================================================== *)
(** ** One sync cycle (main.go:198-233) *)

Definition syncClipboards (cm : ClipboardManager) : IO (ClipboardManager * error) :=
  wr <- getWaylandClipboard cm ;;
  xr <- getX11Clipboard cm ;;
  let waylandContent := fst wr in
  let x11Content := fst xr in
  let waylandHash := hash waylandContent in
  let x11Hash := hash x11Content in
  (* Sync Wayland -> X11 (if Wayland changed) *)
  st <- (if neq waylandHash (lastWaylandHash cm) && neq waylandContent "" then
           st <- (if neq waylandHash x11Hash then
                    logf cm ">> wayland -> vmware: %d bytes" [ArgInt (len waylandContent)] ;;;
                    err <- setX11Clipboard cm waylandContent ;;
                    match err with
                    | Some e => logf cm "error syncing to x11: %v" [ArgStr e]
                    | None => ret tt
                    end ;;;
                    ret (set_lastX11Hash cm waylandHash, waylandHash)
                  else ret (cm, x11Hash)) ;;
           ret (set_lastWaylandHash (fst st) waylandHash, snd st)
         else ret (cm, x11Hash)) ;;
  let cm := fst st in
  let x11Hash := snd st in
  (* Sync X11 -> Wayland (if X11 changed) *)
  st <- (if neq x11Hash (lastX11Hash cm) && neq x11Content "" then
           st <- (if neq x11Hash waylandHash then
                    logf cm "<< vmware -> wayland: %d bytes" [ArgInt (len x11Content)] ;;;
                    err <- setWaylandClipboard cm x11Content ;;
                    match err with
                    | Some e => logf cm "error syncing to wayland: %v" [ArgStr e]
                    | None => ret tt
                    end ;;;
                    ret (set_lastWaylandHash cm x11Hash, x11Hash)
                  else ret (cm, waylandHash)) ;;
           ret (set_lastX11Hash (fst st) x11Hash)
         else ret cm) ;;
  ret (st, None).

(* ================================================================== *)
(** ** Construction and configuration (main.go:56-90, 272-322) *)

(** The operating system and library calls made at startup. *)
Record Host : Type := mkHost
  { LookPath : string -> bool;                  (* exec.LookPath finds it *)
    UserHomeDir : string;
    Stat : string -> bool;                      (* os.Stat succeeds *)
    DecodeFile : string -> Config + string;     (* toml.DecodeFile *)
    ExpandEnv : string -> string;
    Join : string -> string -> string;          (* filepath.Join *)
    Dir : string -> string;                     (* filepath.Dir *)
    MkdirAll : string -> error;
    OpenFile : string -> error }.

Definition NewClipboardManager (h : Host) (config : Config) : ClipboardManager + string :=
  let opened :=
    if neq (LogFile (Logging config)) "" then
      let logPath := ExpandEnv h (LogFile (Logging config)) in
      let logPath :=
        match logPath with
        | String "~" rest => Join h (UserHomeDir h) rest
        | _ => logPath
        end in
      let logDir := Dir h logPath in
      match MkdirAll h logDir with
      | Some err => inr ("failed to create log directory: " ++ err)%string
      | None =>
          match OpenFile h logPath with
          | Some err => inr ("failed to open log file: " ++ err)%string
          | None => inl (File logPath)
          end
      end
    else inl Stdout in
  match opened with
  | inr err => inr err
  | inl logOutput =>
      inl {| lastWaylandHash := "";
             lastX11Hash := "";
             syncInterval := int64 (IntervalMs (Sync config) * Millisecond);
             commandTimeout := int64 (CommandTimeout (Timeouts_ config) * Second);
             maxClipboardSize := MaxClipboardSize (Timeouts_ config);
             enableLogging := Verbose (Logging config);
             logWriter := logOutput |}
  end.

Definition getDefaultConfig (h : Host) : Config :=
  {| Timeouts_ := {| CommandTimeout := 2; MaxClipboardSize := 52428800 |};
     Sync := {| IntervalMs := 500; EnableLogging := true |};
     Logging := {| Verbose := true;
                      LogFile := Join h (UserHomeDir h) ".local/share/vmware-sway-sync/sync.log" |} |}.

Definition LoadConfig (h : Host) : Config + string :=
  let home := UserHomeDir h in
  let configPaths :=
    [ Join h home ".config/vmware-sway-sync/config.toml";
      Join h home ".vmware-sway-sync.toml";
      "/etc/vmware-sway-sync/config.toml" ] in
  match find (Stat h) configPaths with
  | Some configPath =>
      if neq configPath "" then
        match DecodeFile h configPath with
        | inr err => inr ("failed to parse config: " ++ err)%string
        | inl config => inl config
        end
      else inl (getDefaultConfig h)
  | None => inl (getDefaultConfig h)
  end.

(* ================================================================== *)
(** ** The loop and the process (main.go:236-263, 324-348) *)

(** What wakes the [select] in [start]: a tick, with the answers the outside
    world gives during that cycle, or a termination signal, with the result
    of closing the log file should it be closed. *)
Inductive Wakeup : Type :=
| Tick (o : Oracle)
| Signal (closeErr : error).

Definition is_stdout (w : WriteCloser) : bool :=
  match w with Stdout => true | File _ => false end.

(** The [for { select { ... } } ] of [start]: [true] once it has returned,
    [false] while it is still waiting when the wake-ups run out. *)
Fixpoint loop (cm : ClipboardManager) (ws : list Wakeup) : bool * list Event :=
  match ws with
  | [] => (false, [])
  | Tick o :: rest =>
      let '(r, t1) := syncClipboards cm o in
      let '(_, t2) := match snd r with
                      | Some err => logf cm "sync error: %v" [ArgStr err] o
                      | None => (tt, [])
                      end in
      let '(b, t3) := loop (fst r) rest in
      (b, t1 ++ t2 ++ t3)
  | Signal closeErr :: _ =>
      let stopped := if enableLogging cm then [Printf "clipboard sync stopped" []] else [] in
      let closed :=
        if is_stdout (logWriter cm) then []
        else Close (logWriter cm) ::
             match closeErr with
             | Some err =>
                 if enableLogging cm
                 then [Printf "warning: error closing log file: %v" [ArgStr err]]
                 else []
             | None => []
             end in
      (true, stopped ++ closed)
  end.

(** How [start] ended: it returned after a signal, it is still waiting when
    the wake-ups run out, or it panicked. *)
Inductive Ended : Type :=
| Returned
| Waiting
| Panicked (msg : string).

(** [start] (main.go:236).  [time.NewTicker] panics for a duration that is
    not positive, before anything is logged and before any cycle. *)
Definition start (cm : ClipboardManager) (ws : list Wakeup) : Ended * list Event :=
  if syncInterval cm <=? 0 then
    (Panicked "non-positive interval for NewTicker", [])
  else
    let started :=
      if enableLogging cm
      then [Printf "clipboard sync started (interval: %v, timeout: %v, max size: %d bytes)"
                   [ArgInt (syncInterval cm); ArgInt (commandTimeout cm);
                    ArgInt (maxClipboardSize cm)]]
      else [] in
    let '(b, t) := loop cm ws in
    (if b then Returned else Waiting, started ++ t).

(** How far the process got: it ended with the given status (it called
    [os.Exit], returned from [main], or died of a panic, which the Go
    runtime turns into status 2), or it is still in the loop. *)
Inductive Process : Type :=
| Exited (status : Z)
| Running.

Definition tools : list string := ["wl-paste"; "wl-copy"; "xclip"].

Definition main (h : Host) (ws : list Wakeup) : Process * list Event :=
  match find (fun tool => negb (LookPath h tool)) tools with
  | Some tool =>
      (Exited 1, [Fprintf "error: %q not found. install it with:\n" [ArgStr tool];
                  Fprintf "  sudo dnf install wl-clipboard xclip\n" []])
  | None =>
      let '(config, t1) :=
        match LoadConfig h with
        | inr err => (getDefaultConfig h,
                      [Fprintf "config error: %v\n" [ArgStr err];
                       Fprintf "using defaults...\n" []])
        | inl config => (config, [])
        end in
      match NewClipboardManager h config with
      | inr err => (Exited 1, t1 ++ [Fprintf "error: %v\n" [ArgStr err]])
      | inl manager =>
          let '(ended, t2) := start manager ws in
          (match ended with
           | Returned => Exited 0
           | Waiting => Running
           | Panicked _ => Exited 2
           end, t1 ++ t2)
      end
  end.

(* ================================================================== *)
(** ** Observing a cycle *)

Definition is_exec (e : Event) : bool :=
  match e with Exec _ _ => true | _ => false end.

(** The copy commands: the external write invocations. *)
Definition is_write (e : Event) : bool :=
  match e with
  | Exec WlCopy _ | Exec XclipIn _ => true
  | _ => false
  end.

Definition execs (t : list Event) : list Event := filter is_exec t.
Definition writes (t : list Event) : list Event := filter is_write t.

(** The content the two reads of a cycle hand to the engine. *)
Definition reads (cm : ClipboardManager) (o : Oracle) : string * string :=
  (fst (fst (getWaylandClipboard cm o)), fst (fst (getX11Clipboard cm o))).

(** The trace of one cycle and the manager after it. *)
Definition trace_of (cm : ClipboardManager) (o : Oracle) : list Event :=
  snd (syncClipboards cm o).

Definition after (cm : ClipboardManager) (o : Oracle) : ClipboardManager :=
  fst (fst (syncClipboards cm o)).

(** The contents of the two clipboards (Wayland, X11) once every copy command
    of a trace has replaced the selection it was started for. *)
Definition deliver (r : string * string) (e : Event) : string * string :=
  match e with
  | Exec WlCopy content => (content, snd r)
  | Exec XclipIn content => (fst r, content)
  | _ => r
  end.

Definition resulting (r : string * string) (t : list Event) : string * string :=
  fold_left deliver t r.

(** A command took effect when it ran to completion. *)
Definition ran (r : RunResult) : bool :=
  match r with RunOk _ => true | RunDeadline | RunFailed _ => false end.

(** The contents of the two clipboards (Wayland, X11) after a cycle that
    was answered by [o]: a copy command replaces the selection it was
    started for when it ran to completion, and leaves it alone when it was
    killed at the deadline or failed. *)
Definition lands (o : Oracle) (r : string * string) (e : Event) : string * string :=
  match e with
  | Exec WlCopy content => if ran (o WlCopy) then (content, snd r) else r
  | Exec XclipIn content => if ran (o XclipIn) then (fst r, content) else r
  | _ => r
  end.

Definition left_behind (o : Oracle) (r : string * string) (t : list Event)
  : string * string :=
  fold_left (lands o) t r.

(** The two decisions of a cycle, from what it read and what it remembers. *)
Definition pushes_x11 (cm : ClipboardManager) (W X : string) : bool :=
  neq (hash W) (lastWaylandHash cm) && neq W "" && neq (hash W) (hash X).

Definition pushes_wayland (cm : ClipboardManager) (W X : string) : bool :=
  negb (pushes_x11 cm W X) &&
  neq (hash X) (lastX11Hash cm) && neq X "" && neq (hash X) (hash W).

(** The configuration [main] goes on with. *)
Definition config_used (h : Host) : Config :=
  match LoadConfig h with
  | inl config => config
  | inr _ => getDefaultConfig h
  end.

Definition is_signal (w : Wakeup) : bool :=
  match w with Signal _ => true | Tick _ => false end.

(* ================================================================== *)
(** ** Concrete managers, hosts and answers *)

(** A manager in the steady state in which both sides held [content]. *)
Definition held (content : string) : ClipboardManager :=
  {| lastWaylandHash := hash content;
     lastX11Hash := hash content;
     syncInterval := 500 * Millisecond;
     commandTimeout := 2 * Second;
     maxClipboardSize := 52428800;
     enableLogging := true;
     logWriter := Stdout |}.

(** The manager [NewClipboardManager] builds for [stdout_config]. *)
Definition fresh : ClipboardManager :=
  {| lastWaylandHash := "";
     lastX11Hash := "";
     syncInterval := 500000000;
     commandTimeout := 2000000000;
     maxClipboardSize := 52428800;
     enableLogging := true;
     logWriter := Stdout |}.

(** A manager that accepts at most ten bytes. *)
Definition ten_bytes : ClipboardManager :=
  {| lastWaylandHash := "";
     lastX11Hash := "";
     syncInterval := 500000000;
     commandTimeout := 2000000000;
     maxClipboardSize := 10;
     enableLogging := true;
     logWriter := Stdout |}.

(** Both paste commands succeed with the given output, and so do the copies. *)
Definition pastes (w x : string) : Oracle :=
  fun t =>
    match t with
    | WlPaste => RunOk w
    | XclipOut => RunOk x
    | WlCopy | XclipIn => RunOk ""
    end.

(** As [pastes "foo" "bar"], but [xclip -i] is killed at the deadline. *)
Definition xclip_write_times_out : Oracle :=
  fun t =>
    match t with
    | WlPaste => RunOk "foo"
    | XclipOut => RunOk "bar"
    | XclipIn => RunDeadline
    | WlCopy => RunOk ""
    end.

(** [wl-paste] is killed at the deadline while X11 still holds "hello". *)
Definition wl_paste_times_out : Oracle :=
  fun t =>
    match t with
    | WlPaste => RunDeadline
    | XclipOut => RunOk "hello"
    | WlCopy | XclipIn => RunOk ""
    end.

Definition stdout_config : Config :=
  {| Timeouts_ := {| CommandTimeout := 2; MaxClipboardSize := 52428800 |};
     Sync := {| IntervalMs := 500; EnableLogging := true |};
     Logging := {| Verbose := true; LogFile := "" |} |}.

(** A host with every tool installed and no configuration file. *)
Definition desktop_host : Host :=
  {| LookPath := fun _ => true;
     UserHomeDir := "/home/user";
     Stat := fun _ => false;
     DecodeFile := fun _ => inr "no such file";
     ExpandEnv := fun p => p;
     Join := fun a b => (a ++ "/" ++ b)%string;
     Dir := fun _ => "/home/user/.local/share/vmware-sway-sync";
     MkdirAll := fun _ => None;
     OpenFile := fun _ => None |}.

(** The same host, on which the log directory cannot be created. *)
Definition readonly_host : Host :=
  {| LookPath := fun _ => true;
     UserHomeDir := "/home/user";
     Stat := fun _ => false;
     DecodeFile := fun _ => inr "no such file";
     ExpandEnv := fun p => p;
     Join := fun a b => (a ++ "/" ++ b)%string;
     Dir := fun _ => "/home/user/.local/share/vmware-sway-sync";
     MkdirAll := fun _ => Some "read-only file system";
     OpenFile := fun _ => None |}.

(** A host whose configuration file does not parse and whose log can be
    opened. *)
Definition broken_config_host : Host :=
  {| LookPath := fun _ => true;
     UserHomeDir := "/home/user";
     Stat := fun _ => true;
     DecodeFile := fun _ => inr "toml: expected key";
     ExpandEnv := fun p => p;
     Join := fun a b => (a ++ "/" ++ b)%string;
     Dir := fun _ => "/home/user/.local/share/vmware-sway-sync";
     MkdirAll := fun _ => None;
     OpenFile := fun _ => None |}.

(* ================================================================== *)
(** ** Further observations *)

(** The characters [%x] prints. *)
Definition is_lower_hex (c : ascii) : bool :=
  existsb (Ascii.eqb c) (list_ascii_of_string "0123456789abcdef").

Definition is_printf (e : Event) : bool :=
  match e with Printf _ _ => true | _ => false end.

Definition is_close (e : Event) : bool :=
  match e with Close _ => true | _ => false end.

(** What a cycle may leave in the trace: processes, and log lines when the
    manager is verbose. *)
Definition allowed (verbose : bool) (e : Event) : bool :=
  is_exec e || (verbose && is_printf e).

(** The manager with another verbosity. *)
Definition set_enableLogging (cm : ClipboardManager) (b : bool) : ClipboardManager :=
  mkClipboardManager (lastWaylandHash cm) (lastX11Hash cm) (syncInterval cm)
                     (commandTimeout cm) (maxClipboardSize cm) b (logWriter cm).

(** A manager that logs to a file, as built for the default configuration. *)
Definition file_backed : ClipboardManager :=
  {| lastWaylandHash := "";
     lastX11Hash := "";
     syncInterval := 500000000;
     commandTimeout := 2000000000;
     maxClipboardSize := 52428800;
     enableLogging := true;
     logWriter := File "/home/user/.local/share/vmware-sway-sync/sync.log" |}.

(** The candidate configuration files of [LoadConfig], in the order tried. *)
Definition configPaths (h : Host) : list string :=
  [ Join h (UserHomeDir h) ".config/vmware-sway-sync/config.toml";
    Join h (UserHomeDir h) ".vmware-sway-sync.toml";
    "/etc/vmware-sway-sync/config.toml" ].

(** A configuration with another value of [enable_logging]. *)
Definition with_EnableLogging (b : bool) (config : Config) : Config :=
  {| Timeouts_ := Timeouts_ config;
     Sync := {| IntervalMs := IntervalMs (Sync config); EnableLogging := b |};
     Logging := Logging config |}.

(** A host on which every configuration file that parses is read as [f] of
    what it holds. *)
Definition decoding (f : Config -> Config) (h : Host) : Host :=
  {| LookPath := LookPath h;
     UserHomeDir := UserHomeDir h;
     Stat := Stat h;
     DecodeFile := fun path =>
       match DecodeFile h path with
       | inl config => inl (f config)
       | inr err => inr err
       end;
     ExpandEnv := ExpandEnv h;
     Join := Join h;
     Dir := Dir h;
     MkdirAll := MkdirAll h;
     OpenFile := OpenFile h |}.

(** A host with a user configuration file that sets only the size limit. *)
Definition configured_host : Host :=
  {| LookPath := fun _ => true;
     UserHomeDir := "/home/user";
     Stat := fun p => String.eqb p "/home/user/.config/vmware-sway-sync/config.toml";
     DecodeFile := fun _ =>
       inl {| Timeouts_ := {| CommandTimeout := 0; MaxClipboardSize := 1024 |};
              Sync := {| IntervalMs := 0; EnableLogging := false |};
              Logging := {| Verbose := false; LogFile := "" |} |};
     ExpandEnv := fun p => p;
     Join := fun a b => (a ++ "/" ++ b)%string;
     Dir := fun _ => "/home/user/.local/share/vmware-sway-sync";
     MkdirAll := fun _ => None;
     OpenFile := fun _ => None |}.

(* ================================================================== *)
(** ** The earlier bridge (main.go:349-443)

    The fixed-constant variant: it keeps the last contents themselves
    instead of digests, runs its commands without a deadline and has no
    size limit on either path.  Byte slices are modelled by [string]. *)

Module Legacy.

Definition SyncInterval : Z := 500 * Millisecond.
Definition MaxTextSize : Z := 1024 * 1024.

(** The five command lines of this variant. *)
Inductive Tool : Type :=
| WlPaste       (* wl-paste --no-newline *)
| XclipUtf8     (* xclip -selection clipboard -t UTF8_STRING -o *)
| XclipString   (* xclip -selection clipboard -t STRING -o *)
| XclipIn       (* xclip -selection clipboard -i *)
| WlCopy.       (* wl-copy *)

(** What [Output()] or [Run()] came to: the captured standard output,
    which is there also when the command failed, and the error. *)
Definition Oracle : Type := Tool -> string * error.

Inductive Event : Type :=
| Exec (tool : Tool) (stdin : string)
| Println (msg : string)
| Printf (format : string) (args : list Arg)
| Sleep (d : Z).

Definition IO (A : Type) : Type := Oracle -> A * list Event.

Definition ret {A : Type} (a : A) : IO A := fun _ => (a, []).

Definition bind {A B : Type} (m : IO A) (k : A -> IO B) : IO B :=
  fun o => let (a, t1) := m o in
           let (b, t2) := k a o in
           (b, t1 ++ t2).

Declare Scope legacy_scope.
Delimit Scope legacy_scope with legacy.
Notation "x <-- m ;; k" := (bind m (fun x => k))
  (at level 100, m at next level, right associativity) : legacy_scope.
Open Scope legacy_scope.

Definition Output (tool : Tool) : IO (string * error) :=
  fun o => (o tool, [Exec tool ""]).

Definition Run (tool : Tool) (stdin : string) : IO error :=
  fun o => (snd (o tool), [Exec tool stdin]).

Definition emit (e : Event) : IO unit := fun _ => (tt, [e]).

Definition is_nil (e : error) : bool :=
  match e with None => true | Some _ => false end.

(** [getX11Clipboard] (main.go:415): UTF8_STRING first, then STRING. *)
Definition getX11Clipboard : IO string :=
  r <-- Output XclipUtf8 ;;
  if is_nil (snd r) && (len (fst r) >? 0) then ret (fst r)
  else
    r <-- Output XclipString ;;
    if is_nil (snd r) && (len (fst r) >? 0) then ret (fst r)
    else ret "".

(** [setX11Clipboard] and [setWaylandClipboard] (main.go:432, 439). *)
Definition setX11Clipboard (data : string) : IO unit :=
  _e <-- Run XclipIn data ;; ret tt.

Definition setWaylandClipboard (data : string) : IO unit :=
  _e <-- Run WlCopy data ;; ret tt.

(** The state of the loop: [lastWayland] and [lastX11]. *)
Definition State : Type := (string * string)%type.

(** One pass through the body of the [for] of [main] (main.go:371-411). *)
Definition iteration (st : State) : IO State :=
  let lastWayland := fst st in
  let lastX11 := snd st in
  r <-- Output WlPaste ;;
  let currentWayland := fst r in
  currentX11 <-- getX11Clipboard ;;
  (* Case A: Wayland changed *)
  s <-- (if (len currentWayland >? 0) && neq currentWayland lastWayland then
           s <-- (if neq currentWayland currentX11 then
                    _u <-- emit (Printf ">> Sway -> VMware: %d bytes"
                                        [ArgInt (len currentWayland)]) ;;
                    _u <-- setX11Clipboard currentWayland ;;
                    ret (currentWayland, currentWayland)
                  else ret (lastX11, currentX11)) ;;
           ret (currentWayland, fst s, snd s)
         else ret (lastWayland, lastX11, currentX11)) ;;
  let lastWayland := fst (fst s) in
  let lastX11 := snd (fst s) in
  let currentX11 := snd s in
  (* Case B: X11 changed *)
  st' <-- (if (len currentX11 >? 0) && neq currentX11 lastX11 then
             lw <-- (if neq currentX11 currentWayland then
                       _u <-- emit (Printf "<< VMware -> Sway: %d bytes"
                                           [ArgInt (len currentX11)]) ;;
                       _u <-- setWaylandClipboard currentX11 ;;
                       ret currentX11
                     else ret lastWayland) ;;
             ret (lw, currentX11)
           else ret (lastWayland, lastX11)) ;;
  _u <-- emit (Sleep SyncInterval) ;;
  ret st'.

(** The [for] of [main], for as many passes as there are answers. *)
Fixpoint passes (st : State) (os : list Oracle) : State * list Event :=
  match os with
  | [] => (st, [])
  | o :: rest =>
      let (st1, t1) := iteration st o in
      let (st2, t2) := passes st1 rest in
      (st2, t1 ++ t2)
  end.

Definition main (os : list Oracle) : State * list Event :=
  let (st, t) := passes ("", "") os in
  (st, Println "Starting Advanced VMware <-> Sway Clipboard Bridge..." ::
       Println "Files work? Good. This tool fixes the TEXT mismatch." :: t).

(** What one pass read: the Wayland content and the X11 content. *)
Definition reads (o : Oracle) : string * string :=
  (fst (o WlPaste), fst (getX11Clipboard o)).

Definition is_exec (e : Event) : bool :=
  match e with Exec _ _ => true | _ => false end.

Definition execs (t : list Event) : list Event := filter is_exec t.

Close Scope legacy_scope.

End Legacy.

(** Where a copy goes. *)
Inductive Side : Type := ToX11 | ToWayland.

(** The copies of a trace, of the manager and of the earlier bridge. *)
Definition copy_of (e : Event) : list (Side * string) :=
  match e with
  | Exec XclipIn c => [(ToX11, c)]
  | Exec WlCopy c => [(ToWayland, c)]
  | _ => []
  end.

Definition legacy_copy_of (e : Legacy.Event) : list (Side * string) :=
  match e with
  | Legacy.Exec Legacy.XclipIn c => [(ToX11, c)]
  | Legacy.Exec Legacy.WlCopy c => [(ToWayland, c)]
  | _ => []
  end.

Definition copies (t : list Event) : list (Side * string) := flat_map copy_of t.

Definition legacy_copies (t : list Legacy.Event) : list (Side * string) :=
  flat_map legacy_copy_of t.

(** A fingerprint of the manager stands for a content the earlier bridge
    remembers: it is its digest, or both are still empty as at startup. *)
Definition tracks (fingerprint content : string) : Prop :=
  fingerprint = hash content \/ (fingerprint = "" /\ content = "").

(** No two different contents of the list share a digest. *)
Definition distinct_digests (l : list string) : Prop :=
  forall a b, In a l -> In b l -> hash a = hash b -> a = b.

(** Answers of the earlier bridge's commands. *)
Definition legacy_pastes (w utf8 str : string * error) : Legacy.Oracle :=
  fun t =>
    match t with
    | Legacy.WlPaste => w
    | Legacy.XclipUtf8 => utf8
    | Legacy.XclipString => str
    | Legacy.XclipIn | Legacy.WlCopy => ("", None)
    end.

(** The two decisions of a pass of the earlier bridge. *)
Definition legacy_pushes_x11 (st : Legacy.State) (W X : string) : bool :=
  (len W >? 0) && neq W (fst st) && neq W X.

Definition legacy_pushes_wayland (st : Legacy.State) (W X : string) : bool :=
  negb (legacy_pushes_x11 st W X) &&
  (len X >? 0) && neq X (snd st) && neq X W.

(** A command's output counts when it exited without error and printed
    something. *)
Definition usable (r : string * error) : bool :=
  Legacy.is_nil (snd r) && neq (fst r) "".

(** [distinct_digests], decided. *)
Definition distinct_digestsb (l : list string) : bool :=
  forallb (fun a =>
    forallb (fun b => implb (String.eqb (hash a) (hash b)) (String.eqb a b)) l) l.

(* ================================================================== *)
(** ** Properties *)

(** *** The digest *)

Lemma sprintf_x_length (bs : list Z) :
  String.length (sprintf_x bs) = (2 * List.length bs)%nat.
Proof.
  induction bs as [|b bs IH]; simpl; [reflexivity|]. rewrite IH. lia.
Qed.

Lemma Sum256_length (msg : list Z) : List.length (SHA256.Sum256 msg) = 32%nat.
Proof.
  unfold SHA256.Sum256, SHA256.be_bytes.
  rewrite !length_app, !length_map, !length_rev, !length_seq. reflexivity.
Qed.

(** A digest is always 64 hexadecimal characters. *)
Lemma hash_length (content : string) : String.length (hash content) = 64%nat.
Proof.
  unfold hash. now rewrite sprintf_x_length, Sum256_length.
Qed.

Lemma hash_not_empty (content : string) : hash content <> "".
Proof.
  intros H. pose proof (hash_length content) as L. rewrite H in L. discriminate.
Qed.

Example first_and_last_constant :
  nth 0 SHA256.K 0 = 0x428a2f98 /\ nth 63 SHA256.K 0 = 0xc67178f2 /\
  SHA256.h0 SHA256.init = 0x6a09e667 /\ SHA256.h7 SHA256.init = 0x5be0cd19 /\
  List.length SHA256.K = 64%nat.
Proof. vm_compute. auto. Qed.

Example hash_of_empty :
  hash "" = "e3b0c44298fc1c149afbf4c8996fb92427ae41e4649b934ca495991b7852b855".
Proof. vm_compute. reflexivity. Qed.

Example hash_of_abc :
  hash "abc" = "ba7816bf8f01cfea414140de5dae2223b00361a396177a9cb410ff61f20015ad".
Proof. vm_compute. reflexivity. Qed.

Example hash_of_two_blocks :
  hash "abcdbcdecdefdefgefghfghighijhijkijkljklmklmnlmnomnopnopq"
  = "248d6a61d20638b8e5c026930c3e6039a33ce45964ff2167f6ecedd419db06c1".
Proof. vm_compute. reflexivity. Qed.

Lemma hash_foo_bar : neq (hash "foo") (hash "bar") = true.
Proof. vm_compute. reflexivity. Qed.

Lemma hash_foo_empty : neq (hash "foo") (hash "") = true.
Proof. vm_compute. reflexivity. Qed.

(** From here on the digest is only compared, never unfolded. *)
Local Opaque hash.

Lemma neq_refl (a : string) : neq a a = false.
Proof. unfold neq. now rewrite String.eqb_refl. Qed.

Lemma neq_false (a b : string) : neq a b = false <-> a = b.
Proof.
  unfold neq. destruct (String.eqb_spec a b); simpl; split; intros; congruence.
Qed.

(** *** The monad *)

Lemma bind_fst {A B : Type} (m : IO A) (k : A -> IO B) (o : Oracle) :
  fst (bind m k o) = fst (k (fst (m o)) o).
Proof. unfold bind. destruct (m o) as [a t1]. simpl. now destruct (k a o). Qed.

Lemma bind_snd {A B : Type} (m : IO A) (k : A -> IO B) (o : Oracle) :
  snd (bind m k o) = snd (m o) ++ snd (k (fst (m o)) o).
Proof. unfold bind. destruct (m o) as [a t1]. simpl. now destruct (k a o). Qed.

Lemma execs_app (t1 t2 : list Event) : execs (t1 ++ t2) = execs t1 ++ execs t2.
Proof. apply filter_app. Qed.

Lemma writes_execs (t : list Event) : writes (execs t) = writes t.
Proof.
  induction t as [|e t IH]; simpl; [reflexivity|].
  destruct e as [[] c| | |]; simpl; now rewrite ?IH.
Qed.

Lemma in_trace_execs (e : Event) (t : list Event) :
  is_exec e = true -> (In e t <-> In e (execs t)).
Proof.
  intros He. unfold execs. rewrite filter_In. tauto.
Qed.

Lemma resulting_execs (t : list Event) (r : string * string) :
  resulting r (execs t) = resulting r t.
Proof.
  unfold resulting. revert r.
  induction t as [|e t IH]; intros r; simpl; [reflexivity|].
  destruct e as [tool c| | |]; simpl; rewrite IH; reflexivity.
Qed.

(** *** The adapters *)

Section Adapters.

Variable cm : ClipboardManager.
Variable o : Oracle.

Lemma logf_execs (f : string) (v : list Arg) : execs (snd (logf cm f v o)) = [].
Proof. unfold logf. now destruct (enableLogging cm). Qed.

Lemma getWayland_execs : execs (snd (getWaylandClipboard cm o)) = [Exec WlPaste ""].
Proof.
  unfold getWaylandClipboard. rewrite bind_snd. simpl.
  destruct (o WlPaste) as [c| |e]; try reflexivity.
  - destruct (len c >? maxClipboardSize cm); [|reflexivity].
    rewrite bind_snd, execs_app, logf_execs. reflexivity.
  - rewrite bind_snd, execs_app, logf_execs. reflexivity.
Qed.

Lemma getX11_execs : execs (snd (getX11Clipboard cm o)) = [Exec XclipOut ""].
Proof.
  unfold getX11Clipboard. rewrite bind_snd. simpl.
  destruct (o XclipOut) as [c| |e]; try reflexivity.
  - destruct (len c >? maxClipboardSize cm); [|reflexivity].
    rewrite bind_snd, execs_app, logf_execs. reflexivity.
  - rewrite bind_snd, execs_app, logf_execs. reflexivity.
Qed.

Lemma getWayland_result :
  fst (getWaylandClipboard cm o) =
    (match o WlPaste with
     | RunOk c => if len c >? maxClipboardSize cm then "" else c
     | _ => ""
     end, None).
Proof.
  unfold getWaylandClipboard. rewrite bind_fst. simpl.
  destruct (o WlPaste) as [c| |e]; try reflexivity.
  - destruct (len c >? maxClipboardSize cm); [|reflexivity]. now rewrite bind_fst.
  - now rewrite bind_fst.
Qed.

Lemma getX11_result :
  fst (getX11Clipboard cm o) =
    (match o XclipOut with
     | RunOk c => if len c >? maxClipboardSize cm then "" else c
     | _ => ""
     end, None).
Proof.
  unfold getX11Clipboard. rewrite bind_fst. simpl.
  destruct (o XclipOut) as [c| |e]; try reflexivity.
  - destruct (len c >? maxClipboardSize cm); [|reflexivity]. now rewrite bind_fst.
  - now rewrite bind_fst.
Qed.

(** The write adapters report [nil] whatever became of the command. *)
Lemma setX11_fst (c : string) : fst (setX11Clipboard cm c o) = None.
Proof.
  unfold setX11Clipboard.
  destruct (len c >? maxClipboardSize cm); rewrite bind_fst; simpl; [reflexivity|].
  destruct (o XclipIn); try reflexivity; now rewrite bind_fst.
Qed.

Lemma setWayland_fst (c : string) : fst (setWaylandClipboard cm c o) = None.
Proof.
  unfold setWaylandClipboard.
  destruct (len c >? maxClipboardSize cm); rewrite bind_fst; simpl; [reflexivity|].
  destruct (o WlCopy); try reflexivity; now rewrite bind_fst.
Qed.

Lemma setX11_execs (c : string) :
  execs (snd (setX11Clipboard cm c o)) =
    if len c >? maxClipboardSize cm then [] else [Exec XclipIn c].
Proof.
  unfold setX11Clipboard.
  destruct (len c >? maxClipboardSize cm); rewrite bind_snd.
  - now rewrite execs_app, logf_execs.
  - simpl. destruct (o XclipIn); try reflexivity;
      now rewrite bind_snd, execs_app, logf_execs.
Qed.

Lemma setWayland_execs (c : string) :
  execs (snd (setWaylandClipboard cm c o)) =
    if len c >? maxClipboardSize cm then [] else [Exec WlCopy c].
Proof.
  unfold setWaylandClipboard.
  destruct (len c >? maxClipboardSize cm); rewrite bind_snd.
  - now rewrite execs_app, logf_execs.
  - simpl. destruct (o WlCopy); try reflexivity;
      now rewrite bind_snd, execs_app, logf_execs.
Qed.

Lemma read_within_limit :
  (fst (reads cm o) = "" \/ len (fst (reads cm o)) <= maxClipboardSize cm) /\
  (snd (reads cm o) = "" \/ len (snd (reads cm o)) <= maxClipboardSize cm).
Proof.
  unfold reads. rewrite getWayland_result, getX11_result. simpl. split.
  - destruct (o WlPaste) as [c| |e]; auto.
    destruct (len c >? maxClipboardSize cm) eqn:H; auto. right. lia.
  - destruct (o XclipOut) as [c| |e]; auto.
    destruct (len c >? maxClipboardSize cm) eqn:H; auto. right. lia.
Qed.

Lemma read_fits (c : string) :
  (c = "" \/ len c <= maxClipboardSize cm) -> neq c "" = true ->
  (len c >? maxClipboardSize cm) = false.
Proof.
  intros H Hn. destruct H as [H|H].
  - subst c. now rewrite neq_refl in Hn.
  - lia.
Qed.

End Adapters.

Lemma reads_agree (cm : ClipboardManager) (o o' : Oracle) :
  o WlPaste = o' WlPaste -> o XclipOut = o' XclipOut -> reads cm o = reads cm o'.
Proof.
  intros H1 H2. unfold reads.
  now rewrite !getWayland_result, !getX11_result, H1, H2.
Qed.

(** *** One cycle, in terms of what it read *)

Ltac norm :=
  repeat (progress
    (rewrite ?bind_snd, ?bind_fst, ?execs_app, ?logf_execs,
             ?setX11_fst, ?setX11_execs, ?setWayland_fst, ?setWayland_execs,
             ?neq_refl;
     cbn [fst snd ret app andb negb execs filter is_exec
          set_lastWaylandHash set_lastX11Hash lastWaylandHash lastX11Hash
          syncInterval commandTimeout maxClipboardSize enableLogging logWriter])).

Section Cycle.

Variable cm : ClipboardManager.
Variable o : Oracle.

Local Abbreviation W := (fst (reads cm o)).
Local Abbreviation X := (snd (reads cm o)).

(** The processes a cycle starts: the two pastes, then at most one copy. *)
Lemma sync_execs :
  execs (trace_of cm o) =
    [Exec WlPaste ""; Exec XclipOut ""] ++
    (if pushes_x11 cm W X then [Exec XclipIn W] else []) ++
    (if pushes_wayland cm W X then [Exec WlCopy X] else []).
Proof.
  destruct (read_within_limit cm o) as [HW HX].
  unfold trace_of, syncClipboards.
  rewrite bind_snd, execs_app, getWayland_execs.
  rewrite bind_snd, execs_app, getX11_execs.
  change (fst (fst (getWaylandClipboard cm o))) with W.
  change (fst (fst (getX11Clipboard cm o))) with X.
  unfold pushes_wayland, pushes_x11.
  destruct (neq (hash W) (lastWaylandHash cm)) eqn:E1;
    destruct (neq W "") eqn:E2;
    destruct (neq (hash W) (hash X)) eqn:E3; norm.
  all: try (destruct (neq (hash X) (lastX11Hash cm)) eqn:E4;
            destruct (neq X "") eqn:E5;
            destruct (neq (hash X) (hash W)) eqn:E6; norm).
  all: try rewrite (read_fits cm W HW) by assumption.
  all: try rewrite (read_fits cm X HX) by assumption.
  all: reflexivity.
Qed.

(** The manager a cycle leaves: only the two fingerprints move. *)
Lemma sync_after :
  after cm o =
    {| lastWaylandHash :=
         if pushes_wayland cm W X then hash X
         else if neq W "" then hash W else lastWaylandHash cm;
       lastX11Hash :=
         if pushes_x11 cm W X then hash W
         else if neq X "" then hash X else lastX11Hash cm;
       syncInterval := syncInterval cm;
       commandTimeout := commandTimeout cm;
       maxClipboardSize := maxClipboardSize cm;
       enableLogging := enableLogging cm;
       logWriter := logWriter cm |}.
Proof.
  unfold after, syncClipboards.
  rewrite !bind_fst.
  change (fst (fst (getWaylandClipboard cm o))) with W.
  change (fst (fst (getX11Clipboard cm o))) with X.
  unfold pushes_wayland, pushes_x11.
  generalize W, X. intros w x.
  destruct cm as [lw lx si ct mx en wr].
  cbn [lastWaylandHash lastX11Hash syncInterval commandTimeout
       maxClipboardSize enableLogging logWriter].
  destruct (neq (hash w) lw) eqn:E1;
    destruct (neq w "") eqn:E2;
    destruct (neq (hash w) (hash x)) eqn:E3; norm.
  all: try (destruct (neq (hash x) lx) eqn:E4;
            destruct (neq x "") eqn:E5;
            destruct (neq (hash x) (hash w)) eqn:E6; norm).
  all: unfold set_lastWaylandHash, set_lastX11Hash; cbn.
  all: try (apply neq_false in E1; subst lw).
  all: try (apply neq_false in E4; subst lx).
  all: try reflexivity.
  all: try (apply neq_false in E3; rewrite E3 in E6; rewrite neq_refl in E6; discriminate).
  all: try (apply neq_false in E6; rewrite E6 in E3; rewrite neq_refl in E3; discriminate).
Qed.

Lemma sync_writes :
  writes (trace_of cm o) =
    (if pushes_x11 cm W X then [Exec XclipIn W] else []) ++
    (if pushes_wayland cm W X then [Exec WlCopy X] else []).
Proof.
  rewrite <- writes_execs, sync_execs.
  destruct (pushes_x11 cm W X); destruct (pushes_wayland cm W X); reflexivity.
Qed.

Lemma x11_write_iff (c : string) :
  In (Exec XclipIn c) (trace_of cm o) <-> pushes_x11 cm W X = true /\ c = W.
Proof.
  rewrite (in_trace_execs (Exec XclipIn c)) by reflexivity.
  rewrite sync_execs.
  destruct (pushes_x11 cm W X); destruct (pushes_wayland cm W X); simpl; split.
  all: try (intros [H|[H|[H|[H|[]]]]]; try discriminate H).
  all: try (intros [H|[H|[H|[]]]]; try discriminate H).
  all: try (intros [H|[H|[]]]; try discriminate H).
  all: try (intros [H1 H2]; try discriminate H1).
  all: try (injection H as H; split; congruence).
  all: subst c; auto.
Qed.

Lemma wayland_write_iff (c : string) :
  In (Exec WlCopy c) (trace_of cm o) <-> pushes_wayland cm W X = true /\ c = X.
Proof.
  rewrite (in_trace_execs (Exec WlCopy c)) by reflexivity.
  rewrite sync_execs.
  destruct (pushes_x11 cm W X); destruct (pushes_wayland cm W X); simpl; split.
  all: try (intros [H|[H|[H|[H|[]]]]]; try discriminate H).
  all: try (intros [H|[H|[H|[]]]]; try discriminate H).
  all: try (intros [H|[H|[]]]; try discriminate H).
  all: try (intros [H1 H2]; try discriminate H1).
  all: try (injection H as H; split; congruence).
  all: subst c; auto.
Qed.

Lemma resulting_cycle :
  resulting (reads cm o) (trace_of cm o) =
    if pushes_x11 cm W X then (W, W)
    else if pushes_wayland cm W X then (X, X) else (W, X).
Proof.
  rewrite <- resulting_execs, sync_execs.
  unfold pushes_wayland.
  destruct (pushes_x11 cm W X); [reflexivity|]. cbn [negb andb].
  destruct (neq (hash X) (lastX11Hash cm) && neq X "" && neq (hash X) (hash W));
    reflexivity.
Qed.

End Cycle.

Lemma pushes_exclusive (cm : ClipboardManager) (W X : string) :
  pushes_x11 cm W X = true -> pushes_wayland cm W X = false.
Proof. unfold pushes_wayland. now intros ->. Qed.

Lemma pushes_x11_nonempty (cm : ClipboardManager) (W X : string) :
  pushes_x11 cm W X = true -> neq W "" = true.
Proof.
  unfold pushes_x11. intros H.
  apply andb_prop in H. destruct H as [H _].
  apply andb_prop in H. now destruct H.
Qed.

Lemma pushes_wayland_nonempty (cm : ClipboardManager) (W X : string) :
  pushes_wayland cm W X = true -> neq X "" = true.
Proof.
  unfold pushes_wayland. intros H.
  apply andb_prop in H. destruct H as [H _].
  apply andb_prop in H. now destruct H.
Qed.

(** Steady state: when every non-empty read matches the fingerprint of its
    side, the cycle writes nothing and leaves the manager as it was. *)
Lemma steady (cm : ClipboardManager) (o : Oracle) :
  (fst (reads cm o) = "" \/ lastWaylandHash cm = hash (fst (reads cm o))) ->
  (snd (reads cm o) = "" \/ lastX11Hash cm = hash (snd (reads cm o))) ->
  writes (trace_of cm o) = [] /\ after cm o = cm.
Proof.
  intros HW HX.
  assert (P1 : pushes_x11 cm (fst (reads cm o)) (snd (reads cm o)) = false).
  { unfold pushes_x11. destruct HW as [-> | ->].
    - now rewrite neq_refl, andb_false_r.
    - now rewrite neq_refl. }
  assert (P2 : pushes_wayland cm (fst (reads cm o)) (snd (reads cm o)) = false).
  { unfold pushes_wayland. rewrite P1. destruct HX as [-> | ->].
    - cbn [negb andb]. now rewrite neq_refl, andb_false_r.
    - now rewrite neq_refl. }
  rewrite sync_writes, sync_after, P1, P2. split; [reflexivity|].
  destruct cm as [lw lx si ct mx en wr]. cbn in *.
  f_equal.
  - destruct HW as [-> | ->]; [now rewrite neq_refl|].
    now destruct (neq _ "").
  - destruct HX as [-> | ->]; [now rewrite neq_refl|].
    now destruct (neq _ "").
Qed.

(** *** The loop and the process *)

Lemma loop_returns (cm : ClipboardManager) (ws : list Wakeup) :
  fst (loop cm ws) = existsb is_signal ws.
Proof.
  revert cm. induction ws as [|w ws IH]; intros cm; [reflexivity|].
  destruct w as [o|e]; simpl.
  - destruct (syncClipboards cm o) as [r t1].
    destruct (snd r); [destruct (logf cm _ _ o)|];
      specialize (IH (fst r)); destruct (loop (fst r) ws); exact IH.
  - reflexivity.
Qed.

Lemma start_unfold (cm : ClipboardManager) (ws : list Wakeup) :
  0 < syncInterval cm ->
  start cm ws =
    (if fst (loop cm ws) then Returned else Waiting,
     (if enableLogging cm
      then [Printf "clipboard sync started (interval: %v, timeout: %v, max size: %d bytes)"
                   [ArgInt (syncInterval cm); ArgInt (commandTimeout cm);
                    ArgInt (maxClipboardSize cm)]]
      else []) ++ snd (loop cm ws)).
Proof.
  intros H. unfold start.
  assert (E : (syncInterval cm <=? 0) = false) by lia. rewrite E.
  now destruct (loop cm ws).
Qed.

Lemma start_panics (cm : ClipboardManager) (ws : list Wakeup) :
  syncInterval cm <= 0 ->
  start cm ws = (Panicked "non-positive interval for NewTicker", []).
Proof.
  intros H. unfold start.
  assert (E : (syncInterval cm <=? 0) = true) by lia. now rewrite E.
Qed.

Lemma start_returns (cm : ClipboardManager) (ws : list Wakeup) :
  0 < syncInterval cm ->
  fst (start cm ws) = if existsb is_signal ws then Returned else Waiting.
Proof.
  intros H. rewrite (start_unfold cm ws H). cbn [fst]. now rewrite loop_returns.
Qed.

Lemma main_cases (h : Host) (ws : list Wakeup) :
  fst (main h ws) =
    match find (fun tool => negb (LookPath h tool)) tools with
    | Some _ => Exited 1
    | None =>
        match NewClipboardManager h (config_used h) with
        | inr _ => Exited 1
        | inl manager =>
            if syncInterval manager <=? 0 then Exited 2
            else if existsb is_signal ws then Exited 0 else Running
        end
    end.
Proof.
  assert (S : forall m,
             match fst (start m ws) with
             | Returned => Exited 0
             | Waiting => Running
             | Panicked _ => Exited 2
             end = if syncInterval m <=? 0 then Exited 2
                   else if existsb is_signal ws then Exited 0 else Running).
  { intros m. destruct (syncInterval m <=? 0) eqn:E.
    - rewrite start_panics by lia. reflexivity.
    - rewrite start_returns by lia. now destruct (existsb is_signal ws). }
  unfold main, config_used.
  destruct (find _ tools); [reflexivity|].
  destruct (LoadConfig h) as [c|e].
  - destruct (NewClipboardManager h c) as [m|e]; [|reflexivity].
    rewrite <- (S m). now destruct (start m ws).
  - destruct (NewClipboardManager h (getDefaultConfig h)) as [m|e']; [|reflexivity].
    rewrite <- (S m). now destruct (start m ws).
Qed.

(* ================================================================== *)
(** ** The synchronization properties *)

(** C1 (no echo).  For all contents A and B with A <> B: after a cycle that
    reads Wayland = A and X11 = B and starts [xclip -i] with A, a following
    cycle in which both reads return A starts no [wl-copy]; it starts no copy
    command at all. *)
Theorem no_echo (cm : ClipboardManager) (o1 o2 : Oracle) (A B : string) :
  A <> B ->
  reads cm o1 = (A, B) ->
  In (Exec XclipIn A) (trace_of cm o1) ->
  reads (after cm o1) o2 = (A, A) ->
  (forall c, ~ In (Exec WlCopy c) (trace_of (after cm o1) o2)) /\
  writes (trace_of (after cm o1) o2) = [].
Proof.
  intros _ _ _ Hr2.
  assert (Q : pushes_wayland (after cm o1) A A = false).
  { unfold pushes_wayland. now rewrite neq_refl, andb_false_r. }
  assert (P : pushes_x11 (after cm o1) A A = false).
  { unfold pushes_x11. now rewrite neq_refl, andb_false_r. }
  split.
  - intros c Hc. apply wayland_write_iff in Hc. rewrite Hr2 in Hc.
    cbn [fst snd] in Hc. rewrite Q in Hc. now destruct Hc.
  - rewrite sync_writes, Hr2. cbn [fst snd]. now rewrite P, Q.
Qed.

Lemma no_echo_witness :
  "foo" <> "bar" /\
  reads (held "") (pastes "foo" "bar") = ("foo", "bar") /\
  In (Exec XclipIn "foo") (trace_of (held "") (pastes "foo" "bar")) /\
  reads (after (held "") (pastes "foo" "bar")) (pastes "foo" "foo") = ("foo", "foo") /\
  (forall c, ~ In (Exec WlCopy c)
                  (trace_of (after (held "") (pastes "foo" "bar")) (pastes "foo" "foo"))) /\
  writes (trace_of (after (held "") (pastes "foo" "bar")) (pastes "foo" "foo")) = [].
Proof.
  assert (H1 : "foo" <> "bar") by discriminate.
  assert (H2 : reads (held "") (pastes "foo" "bar") = ("foo", "bar")) by reflexivity.
  assert (H3 : In (Exec XclipIn "foo") (trace_of (held "") (pastes "foo" "bar"))).
  { vm_compute. auto 10. }
  assert (H4 : reads (after (held "") (pastes "foo" "bar")) (pastes "foo" "foo")
               = ("foo", "foo")) by (vm_compute; reflexivity).
  exact (conj H1 (conj H2 (conj H3 (conj H4
           (no_echo (held "") (pastes "foo" "bar") (pastes "foo" "foo")
                    "foo" "bar" H1 H2 H3 H4))))).
Defined.

(** The fingerprint alone already stops the echo: whatever the Wayland read
    of the following cycle returns, X11 reading back the content just pushed
    starts no [wl-copy]. *)
Lemma no_echo_from_fingerprint (cm : ClipboardManager) (o1 o2 : Oracle) (A : string) :
  In (Exec XclipIn A) (trace_of cm o1) ->
  snd (reads (after cm o1) o2) = A ->
  forall c, ~ In (Exec WlCopy c) (trace_of (after cm o1) o2).
Proof.
  intros Hw Hr2 c Hc.
  apply x11_write_iff in Hw. destruct Hw as [P ->].
  apply wayland_write_iff in Hc. destruct Hc as [Q _].
  rewrite Hr2 in Q. unfold pushes_wayland in Q.
  rewrite (sync_after cm o1) in Q. cbn [lastX11Hash] in Q.
  rewrite P, neq_refl, andb_false_r in Q. discriminate.
Qed.

(** With every copy of the first cycle delivered: when the reads of a
    second cycle return what the first cycle read, with the content it
    copied held by the destination, the second cycle starts no copy command
    and leaves both fingerprints as the first cycle left them. *)
Lemma idempotence (cm : ClipboardManager) (o1 o2 : Oracle) :
  reads (after cm o1) o2 = resulting (reads cm o1) (trace_of cm o1) ->
  writes (trace_of (after cm o1) o2) = [] /\
  lastWaylandHash (after (after cm o1) o2) = lastWaylandHash (after cm o1) /\
  lastX11Hash (after (after cm o1) o2) = lastX11Hash (after cm o1).
Proof.
  intros Hr. rewrite resulting_cycle in Hr.
  cut (writes (trace_of (after cm o1) o2) = [] /\ after (after cm o1) o2 = after cm o1).
  { intros [H1 H2]. rewrite H2. auto. }
  apply steady; rewrite Hr, (sync_after cm o1); cbn [lastWaylandHash lastX11Hash].
  - destruct (pushes_x11 cm _ _) eqn:E1.
    + rewrite (pushes_exclusive _ _ _ E1), (pushes_x11_nonempty _ _ _ E1). now right.
    + destruct (pushes_wayland cm _ _) eqn:E2; [now right|].
      cbn [fst]. destruct (neq (fst (reads cm o1)) "") eqn:E3; [now right|].
      left. now apply neq_false.
  - destruct (pushes_x11 cm _ _) eqn:E1; [now right|].
    destruct (pushes_wayland cm _ _) eqn:E2.
    + rewrite (pushes_wayland_nonempty _ _ _ E2). now right.
    + cbn [snd]. destruct (neq (snd (reads cm o1)) "") eqn:E3; [now right|].
      left. now apply neq_false.
Qed.

Lemma left_behind_delivered (o : Oracle) (t : list Event) :
  (forall tool c, In (Exec tool c) (writes t) -> ran (o tool) = true) ->
  forall r, left_behind o r t = resulting r t.
Proof.
  unfold left_behind, resulting.
  induction t as [|e t IH]; intros H r; [reflexivity|].
  assert (Ht : forall tool c, In (Exec tool c) (writes t) -> ran (o tool) = true).
  { intros tool c Hin. apply (H tool c). unfold writes in *. simpl.
    destruct (is_write e); [now right|exact Hin]. }
  destruct e as [[] c| | |]; cbn [fold_left lands deliver]; try apply (IH Ht).
  - rewrite (H WlCopy c) by (now left). apply (IH Ht).
  - rewrite (H XclipIn c) by (now left). apply (IH Ht).
Qed.

(** C2, as stated, fails: both sides held "bar", Wayland changes to "foo",
    and [xclip -i "foo"] is killed at the deadline, so X11 still holds
    "bar".  Nothing changes on either side before the second cycle, which
    reads "foo" and "bar" again; yet it starts [wl-copy "bar"] and moves
    both fingerprints. *)
Lemma failed_copy_breaks_idempotence :
  reads (after (held "bar") xclip_write_times_out) xclip_write_times_out
    = left_behind xclip_write_times_out
        (reads (held "bar") xclip_write_times_out)
        (trace_of (held "bar") xclip_write_times_out) /\
  writes (trace_of (after (held "bar") xclip_write_times_out) xclip_write_times_out)
    = [Exec WlCopy "bar"] /\
  lastWaylandHash (after (after (held "bar") xclip_write_times_out)
                         xclip_write_times_out)
    <> lastWaylandHash (after (held "bar") xclip_write_times_out) /\
  lastX11Hash (after (after (held "bar") xclip_write_times_out)
                     xclip_write_times_out)
    <> lastX11Hash (after (held "bar") xclip_write_times_out).
Proof.
  split; [|split; [|split]].
  - vm_compute. reflexivity.
  - vm_compute. reflexivity.
  - vm_compute. discriminate.
  - vm_compute. discriminate.
Qed.

(** C2, amended (idempotence).  For every manager, given two consecutive
    cycles with no external change to either side between them (the reads
    of the second cycle return the contents the first cycle left behind)
    and with every copy command the first cycle started run to completion,
    the second cycle starts no copy command and leaves both fingerprints
    unchanged. *)
Theorem idempotence_when_delivered (cm : ClipboardManager) (o1 o2 : Oracle) :
  (forall tool c, In (Exec tool c) (writes (trace_of cm o1)) -> ran (o1 tool) = true) ->
  reads (after cm o1) o2 = left_behind o1 (reads cm o1) (trace_of cm o1) ->
  writes (trace_of (after cm o1) o2) = [] /\
  lastWaylandHash (after (after cm o1) o2) = lastWaylandHash (after cm o1) /\
  lastX11Hash (after (after cm o1) o2) = lastX11Hash (after cm o1).
Proof.
  intros Hran Hr.
  rewrite (left_behind_delivered o1 (trace_of cm o1) Hran) in Hr.
  exact (idempotence cm o1 o2 Hr).
Qed.

Lemma idempotence_when_delivered_witness :
  (forall tool c, In (Exec tool c) (writes (trace_of fresh (pastes "hello" ""))) ->
                  ran (pastes "hello" "" tool) = true) /\
  reads (after fresh (pastes "hello" "")) (pastes "hello" "hello")
    = left_behind (pastes "hello" "") (reads fresh (pastes "hello" ""))
                  (trace_of fresh (pastes "hello" "")) /\
  writes (trace_of (after fresh (pastes "hello" "")) (pastes "hello" "hello")) = [] /\
  lastWaylandHash (after (after fresh (pastes "hello" "")) (pastes "hello" "hello"))
    = lastWaylandHash (after fresh (pastes "hello" "")) /\
  lastX11Hash (after (after fresh (pastes "hello" "")) (pastes "hello" "hello"))
    = lastX11Hash (after fresh (pastes "hello" "")).
Proof.
  assert (H1 : forall tool c,
             In (Exec tool c) (writes (trace_of fresh (pastes "hello" ""))) ->
             ran (pastes "hello" "" tool) = true).
  { intros tool c _. now destruct tool. }
  assert (H2 : reads (after fresh (pastes "hello" "")) (pastes "hello" "hello")
               = left_behind (pastes "hello" "") (reads fresh (pastes "hello" ""))
                             (trace_of fresh (pastes "hello" ""))).
  { vm_compute. reflexivity. }
  exact (conj H1 (conj H2
           (idempotence_when_delivered fresh (pastes "hello" "")
              (pastes "hello" "hello") H1 H2))).
Defined.

(** The end-to-end scenario: a fresh manager reads "hello" on Wayland and
    nothing on X11, starts [xclip -i] once, and holds the digest of "hello"
    on both sides. *)
Example end_to_end :
  writes (trace_of fresh (pastes "hello" "")) = [Exec XclipIn "hello"] /\
  lastWaylandHash (after fresh (pastes "hello" "")) = hash "hello" /\
  lastX11Hash (after fresh (pastes "hello" "")) = hash "hello".
Proof. vm_compute. auto. Qed.

(** C3 (directional tie-break).  From both fingerprints at the digest of the
    empty content, a cycle that reads Wayland = "foo" and X11 = "bar" starts
    [xclip -i] with "foo" exactly once and starts no [wl-copy]; with that
    copy delivered X11 holds "foo". *)
Theorem tie_break (cm : ClipboardManager) (o : Oracle) :
  lastWaylandHash cm = hash "" ->
  lastX11Hash cm = hash "" ->
  reads cm o = ("foo", "bar") ->
  writes (trace_of cm o) = [Exec XclipIn "foo"] /\
  (forall c, ~ In (Exec WlCopy c) (trace_of cm o)) /\
  snd (resulting (reads cm o) (trace_of cm o)) = "foo".
Proof.
  intros Hlw Hlx Hr.
  assert (P : pushes_x11 cm "foo" "bar" = true).
  { unfold pushes_x11. rewrite Hlw, hash_foo_empty, hash_foo_bar. reflexivity. }
  repeat split.
  - rewrite sync_writes, Hr. cbn [fst snd].
    rewrite P, (pushes_exclusive _ _ _ P). reflexivity.
  - intros c Hc. apply wayland_write_iff in Hc. rewrite Hr in Hc.
    cbn [fst snd] in Hc. rewrite (pushes_exclusive _ _ _ P) in Hc.
    destruct Hc. discriminate.
  - rewrite resulting_cycle, Hr. cbn [fst snd]. rewrite P. reflexivity.
Qed.

Lemma tie_break_witness :
  lastWaylandHash (held "") = hash "" /\
  lastX11Hash (held "") = hash "" /\
  reads (held "") (pastes "foo" "bar") = ("foo", "bar") /\
  writes (trace_of (held "") (pastes "foo" "bar")) = [Exec XclipIn "foo"] /\
  (forall c, ~ In (Exec WlCopy c) (trace_of (held "") (pastes "foo" "bar"))) /\
  snd (resulting (reads (held "") (pastes "foo" "bar"))
                 (trace_of (held "") (pastes "foo" "bar"))) = "foo".
Proof.
  exact (conj eq_refl (conj eq_refl (conj eq_refl
           (tie_break (held "") (pastes "foo" "bar") eq_refl eq_refl eq_refl)))).
Defined.

(** C4, as stated, fails: both sides held "bar", Wayland changes to "foo",
    and [xclip -i "foo"] is killed at the deadline.  The X11 fingerprint is
    advanced all the same, and the next cycle, reading "foo" and "bar"
    again, does not start [xclip -i] anew but copies "bar" back to Wayland. *)
Lemma write_failure_advances_fingerprint :
  In (Exec XclipIn "foo") (trace_of (held "bar") xclip_write_times_out) /\
  xclip_write_times_out XclipIn = RunDeadline /\
  lastX11Hash (after (held "bar") xclip_write_times_out) <> lastX11Hash (held "bar") /\
  writes (trace_of (after (held "bar") xclip_write_times_out) xclip_write_times_out)
    = [Exec WlCopy "bar"].
Proof.
  split; [|split; [|split]].
  - vm_compute. auto 10.
  - reflexivity.
  - vm_compute. discriminate.
  - vm_compute. reflexivity.
Qed.

(** C4, amended (write outcome).  Two cycles of the same manager whose
    paste commands answer alike leave the same manager and start the same
    copy commands, whatever becomes of the copy commands: in every cycle
    that starts a copy with content c, the fingerprint of the destination
    is the digest of c afterwards, also when the copy timed out or failed,
    and a following cycle that reads c on the source side again does not
    start that copy again. *)
Theorem write_outcome_ignored (cm : ClipboardManager) (o o' : Oracle) :
  o WlPaste = o' WlPaste ->
  o XclipOut = o' XclipOut ->
  after cm o = after cm o' /\
  writes (trace_of cm o) = writes (trace_of cm o') /\
  (forall c, In (Exec XclipIn c) (trace_of cm o) ->
     lastX11Hash (after cm o) = hash c /\
     forall o2 c', fst (reads (after cm o) o2) = c ->
                   ~ In (Exec XclipIn c') (trace_of (after cm o) o2)) /\
  (forall c, In (Exec WlCopy c) (trace_of cm o) ->
     lastWaylandHash (after cm o) = hash c /\
     forall o2 c', snd (reads (after cm o) o2) = c ->
                   ~ In (Exec WlCopy c') (trace_of (after cm o) o2)).
Proof.
  intros H1 H2. pose proof (reads_agree cm o o' H1 H2) as Hr.
  split; [|split; [|split]].
  - now rewrite !sync_after, Hr.
  - now rewrite !sync_writes, Hr.
  - intros c Hc. apply x11_write_iff in Hc. destruct Hc as [P ->].
    split.
    + rewrite sync_after. cbn [lastX11Hash]. now rewrite P.
    + intros o2 c' Hr2 Hc'. apply x11_write_iff in Hc'. destruct Hc' as [Q _].
      rewrite Hr2 in Q. unfold pushes_x11 in Q.
      rewrite (sync_after cm o) in Q. cbn [lastWaylandHash] in Q.
      rewrite (pushes_exclusive _ _ _ P), (pushes_x11_nonempty _ _ _ P), neq_refl in Q.
      discriminate.
  - intros c Hc. apply wayland_write_iff in Hc. destruct Hc as [P ->].
    split.
    + rewrite sync_after. cbn [lastWaylandHash]. now rewrite P.
    + intros o2 c' Hr2 Hc'. apply wayland_write_iff in Hc'. destruct Hc' as [Q _].
      rewrite Hr2 in Q. unfold pushes_wayland in Q.
      rewrite (sync_after cm o) in Q. cbn [lastX11Hash] in Q.
      assert (P1 : pushes_x11 cm (fst (reads cm o)) (snd (reads cm o)) = false).
      { unfold pushes_wayland in P.
        destruct (pushes_x11 cm _ _); [discriminate|reflexivity]. }
      rewrite P1, (pushes_wayland_nonempty _ _ _ P), neq_refl in Q.
      rewrite andb_false_r in Q. discriminate.
Qed.

Lemma write_outcome_ignored_witness :
  xclip_write_times_out WlPaste = pastes "foo" "bar" WlPaste /\
  xclip_write_times_out XclipOut = pastes "foo" "bar" XclipOut /\
  after (held "bar") xclip_write_times_out = after (held "bar") (pastes "foo" "bar") /\
  writes (trace_of (held "bar") xclip_write_times_out)
    = writes (trace_of (held "bar") (pastes "foo" "bar")) /\
  (forall c, In (Exec XclipIn c) (trace_of (held "bar") xclip_write_times_out) ->
     lastX11Hash (after (held "bar") xclip_write_times_out) = hash c /\
     forall o2 c', fst (reads (after (held "bar") xclip_write_times_out) o2) = c ->
                   ~ In (Exec XclipIn c')
                        (trace_of (after (held "bar") xclip_write_times_out) o2)) /\
  (forall c, In (Exec WlCopy c) (trace_of (held "bar") xclip_write_times_out) ->
     lastWaylandHash (after (held "bar") xclip_write_times_out) = hash c /\
     forall o2 c', snd (reads (after (held "bar") xclip_write_times_out) o2) = c ->
                   ~ In (Exec WlCopy c')
                        (trace_of (after (held "bar") xclip_write_times_out) o2)).
Proof.
  exact (conj eq_refl (conj eq_refl
           (write_outcome_ignored (held "bar") xclip_write_times_out
                                  (pastes "foo" "bar") eq_refl eq_refl))).
Defined.

(** C5, as stated, fails: the manager built for a configuration that logs to
    standard output has the empty string in both fingerprints, and the
    empty string is not the digest of the empty content. *)
Lemma initial_fingerprints_not_digest :
  NewClipboardManager desktop_host stdout_config = inl fresh /\
  lastWaylandHash fresh <> hash "" /\
  lastX11Hash fresh <> hash "".
Proof.
  split; [reflexivity|]. split; apply not_eq_sym, hash_not_empty.
Qed.

(** C5, amended (initial fingerprints).  Every manager [NewClipboardManager]
    returns has the empty string in [lastWaylandHash] and in [lastX11Hash];
    no content has that digest, so neither fingerprint is the digest of any
    content, the empty one included. *)
Theorem initial_fingerprints (h : Host) (config : Config) (cm : ClipboardManager) :
  NewClipboardManager h config = inl cm ->
  lastWaylandHash cm = "" /\ lastX11Hash cm = "" /\
  forall content,
    hash content <> lastWaylandHash cm /\ hash content <> lastX11Hash cm.
Proof.
  unfold NewClipboardManager. intros H.
  assert (E : lastWaylandHash cm = "" /\ lastX11Hash cm = "").
  { destruct (neq (LogFile (Logging config)) "").
    - destruct (MkdirAll h _); [discriminate|].
      destruct (OpenFile h _); [discriminate|].
      injection H as <-. auto.
    - injection H as <-. auto. }
  destruct E as [E1 E2]. rewrite E1, E2.
  repeat split; apply hash_not_empty.
Qed.

Lemma initial_fingerprints_witness :
  NewClipboardManager desktop_host stdout_config = inl fresh /\
  lastWaylandHash fresh = "" /\ lastX11Hash fresh = "" /\
  forall content,
    hash content <> lastWaylandHash fresh /\ hash content <> lastX11Hash fresh.
Proof.
  exact (conj eq_refl (initial_fingerprints desktop_host stdout_config fresh eq_refl)).
Defined.

(** C6 (size guard).  For every content longer than [maxClipboardSize]: a
    paste command that prints it makes the read return the empty string, no
    cycle starts a copy command with it, and the write adapters called with
    it start no process. *)
Theorem size_guard (cm : ClipboardManager) (o : Oracle) (content : string) :
  len content > maxClipboardSize cm ->
  (o WlPaste = RunOk content -> fst (getWaylandClipboard cm o) = ("", None)) /\
  (o XclipOut = RunOk content -> fst (getX11Clipboard cm o) = ("", None)) /\
  ~ In (Exec XclipIn content) (trace_of cm o) /\
  ~ In (Exec WlCopy content) (trace_of cm o) /\
  execs (snd (setX11Clipboard cm content o)) = [] /\
  execs (snd (setWaylandClipboard cm content o)) = [].
Proof.
  intros Hlen.
  assert (Hgt : (len content >? maxClipboardSize cm) = true) by lia.
  destruct (read_within_limit cm o) as [HW HX].
  repeat split.
  - intros Ho. now rewrite getWayland_result, Ho, Hgt.
  - intros Ho. now rewrite getX11_result, Ho, Hgt.
  - intros Hin. apply x11_write_iff in Hin. destruct Hin as [P Hc].
    rewrite <- Hc in HW, P.
    apply pushes_x11_nonempty in P. destruct HW as [HW|HW]; [|lia].
    rewrite HW, neq_refl in P. discriminate.
  - intros Hin. apply wayland_write_iff in Hin. destruct Hin as [P Hc].
    rewrite <- Hc in HX, P.
    apply pushes_wayland_nonempty in P. destruct HX as [HX|HX]; [|lia].
    rewrite HX, neq_refl in P. discriminate.
  - now rewrite setX11_execs, Hgt.
  - now rewrite setWayland_execs, Hgt.
Qed.

Lemma size_guard_witness :
  len "hello world" > maxClipboardSize ten_bytes /\
  (pastes "hello world" "" WlPaste = RunOk "hello world" ->
     fst (getWaylandClipboard ten_bytes (pastes "hello world" "")) = ("", None)) /\
  (pastes "hello world" "" XclipOut = RunOk "hello world" ->
     fst (getX11Clipboard ten_bytes (pastes "hello world" "")) = ("", None)) /\
  ~ In (Exec XclipIn "hello world") (trace_of ten_bytes (pastes "hello world" "")) /\
  ~ In (Exec WlCopy "hello world") (trace_of ten_bytes (pastes "hello world" "")) /\
  execs (snd (setX11Clipboard ten_bytes "hello world" (pastes "hello world" ""))) = [] /\
  execs (snd (setWaylandClipboard ten_bytes "hello world" (pastes "hello world" ""))) = [].
Proof.
  assert (H : len "hello world" > maxClipboardSize ten_bytes) by (vm_compute; reflexivity).
  exact (conj H (size_guard ten_bytes (pastes "hello world" "") "hello world" H)).
Defined.

(** The oversized-content scenario: with a limit of ten bytes and eleven
    bytes on Wayland, nothing is copied and the fingerprints stay. *)
Example oversized_scenario :
  reads ten_bytes (pastes "hello world" "") = ("", "") /\
  writes (trace_of ten_bytes (pastes "hello world" "")) = [] /\
  after ten_bytes (pastes "hello world" "") = ten_bytes.
Proof. vm_compute. auto. Qed.

(** C7 (read guarantee).  Both read adapters always return a nil error;
    the content is the empty string when the command timed out, failed or
    printed more than [maxClipboardSize] bytes, and the printed content
    otherwise; so it is empty or at most [maxClipboardSize] long. *)
Theorem read_guarantee (cm : ClipboardManager) (o : Oracle) :
  (snd (fst (getWaylandClipboard cm o)) = None /\
   fst (fst (getWaylandClipboard cm o)) =
     match o WlPaste with
     | RunOk content => if len content >? maxClipboardSize cm then "" else content
     | RunDeadline | RunFailed _ => ""
     end /\
   (fst (fst (getWaylandClipboard cm o)) = "" \/
    len (fst (fst (getWaylandClipboard cm o))) <= maxClipboardSize cm)) /\
  (snd (fst (getX11Clipboard cm o)) = None /\
   fst (fst (getX11Clipboard cm o)) =
     match o XclipOut with
     | RunOk content => if len content >? maxClipboardSize cm then "" else content
     | RunDeadline | RunFailed _ => ""
     end /\
   (fst (fst (getX11Clipboard cm o)) = "" \/
    len (fst (fst (getX11Clipboard cm o))) <= maxClipboardSize cm)).
Proof.
  destruct (read_within_limit cm o) as [HW HX]. unfold reads in HW, HX.
  cbn [fst snd] in HW, HX.
  split; (split; [|split]); auto.
  all: try (rewrite getWayland_result; cbn [fst snd]; now destruct (o WlPaste)).
  all: try (rewrite getX11_result; cbn [fst snd]; now destruct (o XclipOut)).
Qed.

(** C8, as stated, fails: both sides held "hello" and [wl-paste] is killed
    at the deadline.  The cycle reads the empty string on Wayland and copies
    nothing there, yet [lastWaylandHash] is neither the digest of what was
    read nor the digest of anything written to Wayland in this cycle. *)
Lemma fingerprint_not_of_empty_read :
  reads (held "hello") wl_paste_times_out = ("", "hello") /\
  ~ (lastWaylandHash (after (held "hello") wl_paste_times_out)
       = hash (fst (reads (held "hello") wl_paste_times_out)) \/
     exists c, In (Exec WlCopy c) (trace_of (held "hello") wl_paste_times_out) /\
               lastWaylandHash (after (held "hello") wl_paste_times_out) = hash c).
Proof.
  split; [reflexivity|]. intros [H|[c [H _]]]; revert H.
  - vm_compute. discriminate.
  - vm_compute. intros H. repeat (destruct H as [H|H]; [discriminate|]). exact H.
Qed.

(** A fresh manager that finds both clipboards empty ends its cycle with a
    Wayland fingerprint that is the digest of no content at all. *)
Lemma fresh_fingerprint_is_no_digest (content : string) :
  lastWaylandHash (after fresh (pastes "" "")) <> hash content.
Proof.
  replace (lastWaylandHash (after fresh (pastes "" ""))) with ""
    by (vm_compute; reflexivity).
  apply not_eq_sym, hash_not_empty.
Qed.

(** C8, amended (fingerprint invariant).  At the end of every cycle, for
    each side: if the cycle started a copy to that side, its fingerprint is
    the digest of the content copied; if not, it is the digest of the
    content read from that side when that content is not empty, and the
    fingerprint the side had before the cycle when it is empty. *)
Theorem fingerprint_invariant (cm : ClipboardManager) (o : Oracle) :
  ((forall c, In (Exec WlCopy c) (trace_of cm o) ->
      lastWaylandHash (after cm o) = hash c) /\
   ((forall c, ~ In (Exec WlCopy c) (trace_of cm o)) ->
      lastWaylandHash (after cm o) =
        if neq (fst (reads cm o)) "" then hash (fst (reads cm o))
        else lastWaylandHash cm)) /\
  ((forall c, In (Exec XclipIn c) (trace_of cm o) ->
      lastX11Hash (after cm o) = hash c) /\
   ((forall c, ~ In (Exec XclipIn c) (trace_of cm o)) ->
      lastX11Hash (after cm o) =
        if neq (snd (reads cm o)) "" then hash (snd (reads cm o))
        else lastX11Hash cm)).
Proof.
  split; split.
  - intros c Hc. apply wayland_write_iff in Hc. destruct Hc as [P ->].
    rewrite sync_after. cbn [lastWaylandHash]. now rewrite P.
  - intros Hno. rewrite sync_after. cbn [lastWaylandHash].
    destruct (pushes_wayland cm _ _) eqn:P; [|reflexivity].
    exfalso. apply (Hno (snd (reads cm o))). apply wayland_write_iff. auto.
  - intros c Hc. apply x11_write_iff in Hc. destruct Hc as [P ->].
    rewrite sync_after. cbn [lastX11Hash]. now rewrite P.
  - intros Hno. rewrite sync_after. cbn [lastX11Hash].
    destruct (pushes_x11 cm _ _) eqn:P; [|reflexivity].
    exfalso. apply (Hno (fst (reads cm o))). apply x11_write_iff. auto.
Qed.

(** C9, as stated, fails: every required tool is found, no configuration
    file exists, and creating the log directory of the defaults fails;
    [main] exits with status 1. *)
Lemma log_directory_failure_exits :
  (forall tool, In tool tools -> LookPath readonly_host tool = true) /\
  LoadConfig readonly_host = inl (getDefaultConfig readonly_host) /\
  fst (main readonly_host []) = Exited 1.
Proof. split; [intros; reflexivity|split; reflexivity]. Qed.

(** A configuration file that does not parse is not fatal: [main] goes on
    with the defaults and stays in the loop. *)
Example broken_config_keeps_running :
  LoadConfig broken_config_host = inr "failed to parse config: toml: expected key" /\
  fst (main broken_config_host [Tick xclip_write_times_out]) = Running /\
  fst (main broken_config_host [Tick xclip_write_times_out; Signal None]) = Exited 0.
Proof. vm_compute. auto. Qed.

(** C9, amended (termination policy).  [main] ends with status 1 exactly
    when a required tool cannot be located or [NewClipboardManager] fails
    (the log directory cannot be created or the log file cannot be opened);
    a configuration load failure only makes it go on with the defaults; and
    when the sync interval of the manager that is built is positive, the
    process ends with no other non-zero status and stays in its loop,
    whatever the commands answer, until a termination signal, upon which it
    ends with status 0. *)
Theorem termination_policy (h : Host) (ws : list Wakeup) :
  (fst (main h ws) = Exited 1 <->
     (exists tool, In tool tools /\ LookPath h tool = false) \/
     (exists err, NewClipboardManager h (config_used h) = inr err)) /\
  (forall err, LoadConfig h = inr err -> config_used h = getDefaultConfig h) /\
  (forall manager,
     (forall tool, In tool tools -> LookPath h tool = true) ->
     NewClipboardManager h (config_used h) = inl manager ->
     0 < syncInterval manager ->
     fst (main h ws) = if existsb is_signal ws then Exited 0 else Running) /\
  ((forall manager, NewClipboardManager h (config_used h) = inl manager ->
                    0 < syncInterval manager) ->
   forall status, fst (main h ws) = Exited status -> status = 1 \/ status = 0).
Proof.
  rewrite main_cases.
  destruct (find (fun tool => negb (LookPath h tool)) tools) as [t|] eqn:F.
  - apply find_some in F. destruct F as [Hin Hneg].
    apply negb_true_iff in Hneg.
    split; [|split; [|split]].
    + split; [intros _; left; eauto | reflexivity].
    + intros err He. unfold config_used. now rewrite He.
    + intros m Hall _ _. rewrite (Hall t Hin) in Hneg. discriminate.
    + intros _ status H. injection H as <-. now left.
  - assert (Hall : forall tool, In tool tools -> LookPath h tool = true).
    { intros tool Hin. pose proof (find_none _ _ F tool Hin) as Hn.
      now apply negb_false_iff in Hn. }
    split; [|split; [|split]].
    + destruct (NewClipboardManager h (config_used h)) as [m|e].
      * split.
        -- destruct (syncInterval m <=? 0); [discriminate|].
           destruct (existsb is_signal ws); discriminate.
        -- intros [[tool [Hin Hf]]|[err He]]; [|discriminate].
           rewrite (Hall tool Hin) in Hf. discriminate.
      * split; [intros _; right; eauto | reflexivity].
    + intros err He. unfold config_used. now rewrite He.
    + intros m _ -> Hpos.
      assert (E : (syncInterval m <=? 0) = false) by lia. now rewrite E.
    + intros Hpos status.
      destruct (NewClipboardManager h (config_used h)) as [m|e].
      * assert (E : (syncInterval m <=? 0) = false)
          by (specialize (Hpos m eq_refl); lia).
        rewrite E. destruct (existsb is_signal ws); [|discriminate].
        intros H. injection H as <-. now right.
      * intros H. injection H as <-. now left.
Qed.

Lemma termination_policy_witness :
  (fst (main broken_config_host [Tick xclip_write_times_out; Signal None]) = Exited 1 <->
     (exists tool, In tool tools /\ LookPath broken_config_host tool = false) \/
     (exists err, NewClipboardManager broken_config_host
                    (config_used broken_config_host) = inr err)) /\
  (forall err, LoadConfig broken_config_host = inr err ->
               config_used broken_config_host = getDefaultConfig broken_config_host) /\
  (forall manager,
     (forall tool, In tool tools -> LookPath broken_config_host tool = true) ->
     NewClipboardManager broken_config_host (config_used broken_config_host)
       = inl manager ->
     0 < syncInterval manager ->
     fst (main broken_config_host [Tick xclip_write_times_out; Signal None])
       = if existsb is_signal [Tick xclip_write_times_out; Signal None]
         then Exited 0 else Running) /\
  ((forall manager,
      NewClipboardManager broken_config_host (config_used broken_config_host)
        = inl manager -> 0 < syncInterval manager) ->
   forall status,
     fst (main broken_config_host [Tick xclip_write_times_out; Signal None])
       = Exited status -> status = 1 \/ status = 0) /\
  (forall manager,
     NewClipboardManager broken_config_host (config_used broken_config_host)
       = inl manager -> 0 < syncInterval manager).
Proof.
  split; [|split; [|split; [|split]]];
    try apply (termination_policy broken_config_host
                 [Tick xclip_write_times_out; Signal None]).
  intros manager H. cbn in H. injection H as <-. reflexivity.
Defined.

(** A configuration file that leaves out [interval_ms] gives a sync
    interval of zero: the manager is built, and the process dies in
    [time.NewTicker] before its first cycle. *)
Example missing_interval_panics :
  fst (main configured_host [Tick (pastes "foo" "bar"); Signal None]) = Exited 2 /\
  snd (main configured_host [Tick (pastes "foo" "bar"); Signal None]) = [].
Proof. split; reflexivity. Qed.

(** C10 (at most one write per cycle).  In every cycle: a cycle that starts
    [xclip -i] does so with the Wayland content it read, leaves
    [lastX11Hash] at the digest of that content and starts no [wl-copy];
    hence a cycle starts at most one copy command, and at most three
    processes in all. *)
Theorem one_write_per_cycle (cm : ClipboardManager) (o : Oracle) :
  (forall c, In (Exec XclipIn c) (trace_of cm o) ->
     c = fst (reads cm o) /\
     lastX11Hash (after cm o) = hash c /\
     forall c', ~ In (Exec WlCopy c') (trace_of cm o)) /\
  (List.length (writes (trace_of cm o)) <= 1)%nat /\
  (List.length (execs (trace_of cm o)) <= 3)%nat.
Proof.
  split; [|split].
  - intros c H. apply x11_write_iff in H. destruct H as [P ->].
    split; [reflexivity|split].
    + rewrite sync_after. cbn [lastX11Hash]. now rewrite P.
    + intros c' Hc'. apply wayland_write_iff in Hc'. destruct Hc' as [Q _].
      rewrite (pushes_exclusive _ _ _ P) in Q. discriminate.
  - rewrite sync_writes.
    destruct (pushes_x11 cm _ _) eqn:P.
    + rewrite (pushes_exclusive _ _ _ P). simpl. lia.
    + destruct (pushes_wayland cm _ _); simpl; lia.
  - rewrite sync_execs.
    destruct (pushes_x11 cm _ _) eqn:P.
    + rewrite (pushes_exclusive _ _ _ P). simpl. lia.
    + destruct (pushes_wayland cm _ _); simpl; lia.
Qed.

(* ================================================================== *)
(** ** Further properties of the manager *)

Local Transparent hash.

Lemma hex_digit_lower (d : Z) : 0 <= d < 16 -> is_lower_hex (hex_digit d) = true.
Proof.
  intros Hd.
  assert (H : forallb (fun n => is_lower_hex (hex_digit (Z.of_nat n))) (seq 0 16) = true)
    by (vm_compute; reflexivity).
  rewrite forallb_forall in H.
  rewrite <- (Z2Nat.id d) by lia. apply H. apply in_seq. lia.
Qed.

Lemma sprintf_x_lower (bs : list Z) :
  (forall b, In b bs -> 0 <= b < 256) ->
  forall c, In c (list_ascii_of_string (sprintf_x bs)) -> is_lower_hex c = true.
Proof.
  induction bs as [|b bs IH]; intros Hb c Hc; simpl in Hc; [contradiction|].
  assert (Hr : 0 <= b < 256) by (apply Hb; now left).
  destruct Hc as [<-|[<-|Hc]].
  - apply hex_digit_lower. split; [apply Z.div_pos; lia|].
    apply Z.div_lt_upper_bound; lia.
  - apply hex_digit_lower. apply Z.mod_pos_bound. lia.
  - apply IH; [|exact Hc]. intros b' Hb'. apply Hb. now right.
Qed.

Lemma Sum256_bytes (msg : list Z) (b : Z) :
  In b (SHA256.Sum256 msg) -> 0 <= b < 256.
Proof.
  unfold SHA256.Sum256, SHA256.be_bytes. rewrite !in_app_iff, !in_map_iff.
  intros H.
  repeat (destruct H as [H|H]); destruct H as [i [<- _]];
    apply Z.mod_pos_bound; lia.
Qed.

(** X1.  A digest is 64 characters long and every character is one of
    0-9 and a-f. *)
Theorem hash_is_lower_hex (content : string) :
  String.length (hash content) = 64%nat /\
  forall c, In c (list_ascii_of_string (hash content)) -> is_lower_hex c = true.
Proof.
  split; [apply hash_length|].
  unfold hash. apply sprintf_x_lower. apply Sum256_bytes.
Qed.

Local Opaque hash.

(** *** What a cycle copies, and when *)

Lemma write_in_trace (t : Tool) (c : string) (tr : list Event) :
  In (Exec t c) (writes tr) <-> In (Exec t c) tr /\ (t = XclipIn \/ t = WlCopy).
Proof.
  unfold writes. rewrite filter_In. split.
  - intros [H1 H2]. split; [exact H1|]. destruct t; simpl in H2; auto; discriminate.
  - intros [H1 [-> | ->]]; auto.
Qed.

(** X2.  Whatever a cycle feeds to a copy command is not empty, is at most
    [maxClipboardSize] long, and is what the cycle read on the other side:
    [xclip -i] gets the Wayland read, [wl-copy] gets the X11 read. *)
Theorem copy_is_a_read (cm : ClipboardManager) (o : Oracle) (t : Tool) (c : string) :
  In (Exec t c) (writes (trace_of cm o)) ->
  c <> "" /\ len c <= maxClipboardSize cm /\
  ((t = XclipIn /\ c = fst (reads cm o)) \/ (t = WlCopy /\ c = snd (reads cm o))).
Proof.
  intros H. apply write_in_trace in H. destruct H as [H Ht].
  destruct (read_within_limit cm o) as [HW HX].
  destruct Ht as [-> | ->].
  - apply x11_write_iff in H. destruct H as [P ->].
    apply pushes_x11_nonempty in P.
    assert (Hne : fst (reads cm o) <> "").
    { intros E. rewrite E, neq_refl in P. discriminate. }
    repeat split; auto. destruct HW as [HW|HW]; [contradiction|exact HW].
  - apply wayland_write_iff in H. destruct H as [P ->].
    apply pushes_wayland_nonempty in P.
    assert (Hne : snd (reads cm o) <> "").
    { intros E. rewrite E, neq_refl in P. discriminate. }
    repeat split; auto. destruct HX as [HX|HX]; [contradiction|exact HX].
Qed.

Lemma copy_is_a_read_witness :
  In (Exec XclipIn "hello") (writes (trace_of fresh (pastes "hello" ""))) /\
  "hello" <> "" /\ len "hello" <= maxClipboardSize fresh /\
  ((XclipIn = XclipIn /\ "hello" = fst (reads fresh (pastes "hello" ""))) \/
   (XclipIn = WlCopy /\ "hello" = snd (reads fresh (pastes "hello" "")))).
Proof.
  assert (H : In (Exec XclipIn "hello") (writes (trace_of fresh (pastes "hello" "")))).
  { vm_compute. auto. }
  exact (conj H (copy_is_a_read fresh (pastes "hello" "") XclipIn "hello" H)).
Defined.

Lemma neq_true (a b : string) : neq a b = true <-> a <> b.
Proof.
  unfold neq. destruct (String.eqb_spec a b); simpl; split; intros; congruence.
Qed.

(** X3.  The rule of the two directions.  A cycle starts [xclip -i]
    exactly when the Wayland read is not empty and its digest differs both
    from [lastWaylandHash] and from the digest of the X11 read.  It starts
    [wl-copy] exactly when the X11 read is not empty, its digest differs
    both from [lastX11Hash] and from the digest of the Wayland read, and the
    Wayland side did not change (its read is empty or has the digest of
    [lastWaylandHash]).  After either copy both fingerprints are the digest
    of the content copied. *)
Theorem direction_rule (cm : ClipboardManager) (o : Oracle) :
  ((exists c, In (Exec XclipIn c) (trace_of cm o)) <->
     fst (reads cm o) <> "" /\
     hash (fst (reads cm o)) <> lastWaylandHash cm /\
     hash (fst (reads cm o)) <> hash (snd (reads cm o))) /\
  ((exists c, In (Exec WlCopy c) (trace_of cm o)) <->
     snd (reads cm o) <> "" /\
     hash (snd (reads cm o)) <> lastX11Hash cm /\
     hash (snd (reads cm o)) <> hash (fst (reads cm o)) /\
     (fst (reads cm o) = "" \/ hash (fst (reads cm o)) = lastWaylandHash cm)) /\
  (forall t c, In (Exec t c) (writes (trace_of cm o)) ->
     lastWaylandHash (after cm o) = hash c /\ lastX11Hash (after cm o) = hash c).
Proof.
  set (W := fst (reads cm o)). set (X := snd (reads cm o)).
  split; [|split].
  - split.
    + intros [c H]. apply x11_write_iff in H. destruct H as [P _].
      fold W X in P. unfold pushes_x11 in P.
      apply andb_prop in P. destruct P as [P P3].
      apply andb_prop in P. destruct P as [P1 P2].
      rewrite neq_true in P1, P2, P3. auto.
    + intros [H1 [H2 H3]]. exists W. apply x11_write_iff. split; [|reflexivity].
      fold W X. unfold pushes_x11.
      apply neq_true in H1, H2, H3. now rewrite H1, H2, H3.
  - split.
    + intros [c H]. apply wayland_write_iff in H. destruct H as [P _].
      fold W X in P. unfold pushes_wayland, pushes_x11 in P.
      apply andb_prop in P. destruct P as [P P4].
      apply andb_prop in P. destruct P as [P P3].
      apply andb_prop in P. destruct P as [P1 P2].
      rewrite neq_true in P2, P3, P4.
      repeat split; auto.
      destruct (neq W "") eqn:E1; [|left; now apply neq_false].
      destruct (neq (hash W) (lastWaylandHash cm)) eqn:E2; [|right; now apply neq_false].
      exfalso. assert (E3 : neq (hash W) (hash X) = true) by (apply neq_true; congruence).
      rewrite E3 in P1. discriminate.
    + intros [H1 [H2 [H3 H4]]]. exists X. apply wayland_write_iff.
      split; [|reflexivity]. fold W X. unfold pushes_wayland, pushes_x11.
      apply neq_true in H1, H2, H3. rewrite H1, H2, H3.
      destruct H4 as [H4|H4].
      * rewrite H4, neq_refl, andb_false_r. reflexivity.
      * rewrite H4, neq_refl. reflexivity.
  - intros t c H. apply write_in_trace in H. destruct H as [H [-> | ->]].
    + apply x11_write_iff in H. destruct H as [P ->].
      rewrite sync_after. cbn [lastWaylandHash lastX11Hash].
      rewrite P, (pushes_exclusive _ _ _ P), (pushes_x11_nonempty _ _ _ P). auto.
    + apply wayland_write_iff in H. destruct H as [P ->].
      rewrite sync_after. cbn [lastWaylandHash lastX11Hash]. rewrite P.
      assert (P1 : pushes_x11 cm (fst (reads cm o)) (snd (reads cm o)) = false).
      { unfold pushes_wayland in P.
        destruct (pushes_x11 cm _ _); [discriminate|reflexivity]. }
      rewrite P1, (pushes_wayland_nonempty _ _ _ P). auto.
Qed.

(** X4.  When both reads return the same non-empty content, the cycle
    copies nothing and leaves the digest of that content in both
    fingerprints, whatever the manager remembered. *)
Theorem agreeing_reads_settle (cm : ClipboardManager) (o : Oracle) (c : string) :
  reads cm o = (c, c) ->
  c <> "" ->
  writes (trace_of cm o) = [] /\
  lastWaylandHash (after cm o) = hash c /\
  lastX11Hash (after cm o) = hash c.
Proof.
  intros Hr Hc. apply neq_true in Hc.
  assert (P : pushes_x11 cm c c = false).
  { unfold pushes_x11. now rewrite neq_refl, andb_false_r. }
  assert (Q : pushes_wayland cm c c = false).
  { unfold pushes_wayland. now rewrite neq_refl, andb_false_r. }
  rewrite sync_writes, sync_after, Hr. cbn [fst snd lastWaylandHash lastX11Hash].
  rewrite P, Q, Hc. auto.
Qed.

Lemma agreeing_reads_settle_witness :
  reads fresh (pastes "hello" "hello") = ("hello", "hello") /\
  "hello" <> "" /\
  writes (trace_of fresh (pastes "hello" "hello")) = [] /\
  lastWaylandHash (after fresh (pastes "hello" "hello")) = hash "hello" /\
  lastX11Hash (after fresh (pastes "hello" "hello")) = hash "hello".
Proof.
  assert (H : "hello" <> "") by discriminate.
  exact (conj eq_refl (conj H
           (agreeing_reads_settle fresh (pastes "hello" "hello") "hello" eq_refl H))).
Defined.

(** *** Verbosity *)

Lemma logf_allowed (b : bool) (cm : ClipboardManager) (f : string) (v : list Arg)
      (o : Oracle) :
  enableLogging cm = b -> forallb (allowed b) (snd (logf cm f v o)) = true.
Proof. intros <-. unfold logf. now destruct (enableLogging cm). Qed.

Lemma getWayland_allowed (b : bool) (cm : ClipboardManager) (o : Oracle) :
  enableLogging cm = b -> forallb (allowed b) (snd (getWaylandClipboard cm o)) = true.
Proof.
  intros Hb. unfold getWaylandClipboard. rewrite bind_snd, forallb_app. simpl.
  destruct (o WlPaste) as [c| |e]; try reflexivity.
  - destruct (len c >? maxClipboardSize cm); [|reflexivity].
    now rewrite bind_snd, forallb_app, logf_allowed.
  - now rewrite bind_snd, forallb_app, logf_allowed.
Qed.

Lemma getX11_allowed (b : bool) (cm : ClipboardManager) (o : Oracle) :
  enableLogging cm = b -> forallb (allowed b) (snd (getX11Clipboard cm o)) = true.
Proof.
  intros Hb. unfold getX11Clipboard. rewrite bind_snd, forallb_app. simpl.
  destruct (o XclipOut) as [c| |e]; try reflexivity.
  - destruct (len c >? maxClipboardSize cm); [|reflexivity].
    now rewrite bind_snd, forallb_app, logf_allowed.
  - now rewrite bind_snd, forallb_app, logf_allowed.
Qed.

Lemma setX11_allowed (b : bool) (cm : ClipboardManager) (c : string) (o : Oracle) :
  enableLogging cm = b -> forallb (allowed b) (snd (setX11Clipboard cm c o)) = true.
Proof.
  intros Hb. unfold setX11Clipboard.
  destruct (len c >? maxClipboardSize cm); rewrite bind_snd, forallb_app.
  - now rewrite logf_allowed.
  - simpl. destruct (o XclipIn); try reflexivity;
      now rewrite bind_snd, forallb_app, logf_allowed.
Qed.

Lemma setWayland_allowed (b : bool) (cm : ClipboardManager) (c : string) (o : Oracle) :
  enableLogging cm = b -> forallb (allowed b) (snd (setWaylandClipboard cm c o)) = true.
Proof.
  intros Hb. unfold setWaylandClipboard.
  destruct (len c >? maxClipboardSize cm); rewrite bind_snd, forallb_app.
  - now rewrite logf_allowed.
  - simpl. destruct (o WlCopy); try reflexivity;
      now rewrite bind_snd, forallb_app, logf_allowed.
Qed.

Ltac norm_allowed :=
  repeat (progress
    (rewrite ?bind_snd, ?bind_fst, ?forallb_app, ?setX11_fst, ?setWayland_fst;
     rewrite ?logf_allowed, ?setX11_allowed, ?setWayland_allowed by reflexivity;
     cbn [fst snd ret app andb forallb
          set_lastWaylandHash set_lastX11Hash lastWaylandHash lastX11Hash
          syncInterval commandTimeout maxClipboardSize enableLogging logWriter])).

(** Every entry of a cycle's trace is a process or, for a verbose manager,
    a log line. *)
Lemma sync_allowed (cm : ClipboardManager) (o : Oracle) :
  forallb (allowed (enableLogging cm)) (trace_of cm o) = true.
Proof.
  unfold trace_of, syncClipboards.
  rewrite bind_snd, forallb_app, getWayland_allowed by reflexivity.
  rewrite bind_snd, forallb_app, getX11_allowed by reflexivity.
  generalize (fst (fst (getWaylandClipboard cm o))),
             (fst (fst (getX11Clipboard cm o))).
  intros w x.
  destruct (neq (hash w) (lastWaylandHash cm));
    destruct (neq w "");
    destruct (neq (hash w) (hash x)); norm_allowed.
  all: try (destruct (neq (hash x) (lastX11Hash cm));
            destruct (neq x "");
            destruct (neq (hash x) (hash w)); norm_allowed).
  all: try reflexivity.
  all: rewrite ?neq_refl; norm_allowed; try reflexivity.
  all: destruct (neq x ""); norm_allowed; reflexivity.
Qed.

Lemma forallb_filter (f : Event -> bool) (t : list Event) :
  forallb f t = true -> filter f t = t.
Proof.
  induction t as [|e t IH]; simpl; [reflexivity|].
  intros H. apply andb_prop in H. destruct H as [He Ht].
  now rewrite He, IH.
Qed.

Lemma reads_verbosity (cm : ClipboardManager) (b : bool) (o : Oracle) :
  reads (set_enableLogging cm b) o = reads cm o.
Proof.
  unfold reads. now rewrite !getWayland_result, !getX11_result.
Qed.

(** X5.  Verbosity only changes the log.  With any other setting of
    [enableLogging] a cycle starts the same processes and leaves the same
    fingerprints; with logging off its trace holds the processes and no
    line at all; and no cycle ever closes the log or writes to the
    standard error stream. *)
Theorem verbosity_only_logs (cm : ClipboardManager) (o : Oracle) (b : bool) :
  execs (trace_of (set_enableLogging cm b) o) = execs (trace_of cm o) /\
  after (set_enableLogging cm b) o = set_enableLogging (after cm o) b /\
  trace_of (set_enableLogging cm false) o = execs (trace_of cm o) /\
  forallb (fun e => is_exec e || is_printf e) (trace_of cm o) = true.
Proof.
  assert (E : forall b', execs (trace_of (set_enableLogging cm b') o)
                         = execs (trace_of cm o)).
  { intros b'. rewrite !sync_execs, reads_verbosity. reflexivity. }
  split; [apply E|]. split; [|split].
  - rewrite !sync_after, reads_verbosity. reflexivity.
  - rewrite <- (E false). symmetry. apply forallb_filter.
    pose proof (sync_allowed (set_enableLogging cm false) o) as H.
    cbn [enableLogging set_enableLogging] in H.
    rewrite forallb_forall in H. apply forallb_forall. intros e He.
    specialize (H e He). unfold allowed in H. cbn in H.
    now rewrite orb_false_r in H.
  - pose proof (sync_allowed cm o) as H.
    rewrite forallb_forall in H. apply forallb_forall. intros e He.
    specialize (H e He). unfold allowed in H.
    destruct (is_exec e); [reflexivity|]. cbn in *.
    now destruct (enableLogging cm).
Qed.

(** *** The loop *)

Lemma sync_no_error (cm : ClipboardManager) (o : Oracle) :
  snd (fst (syncClipboards cm o)) = None.
Proof. unfold syncClipboards. now rewrite !bind_fst. Qed.

Lemma loop_tick (cm : ClipboardManager) (o : Oracle) (rest : list Wakeup) :
  loop cm (Tick o :: rest) =
    (fst (loop (after cm o) rest), trace_of cm o ++ snd (loop (after cm o) rest)).
Proof.
  simpl. unfold after, trace_of.
  pose proof (sync_no_error cm o) as He.
  destruct (syncClipboards cm o) as [r t1]. simpl in *. rewrite He.
  destruct (loop (fst r) rest). reflexivity.
Qed.

Lemma after_logWriter (cm : ClipboardManager) (o : Oracle) :
  logWriter (after cm o) = logWriter cm.
Proof. now rewrite sync_after. Qed.

Lemma cycle_never_closes (cm : ClipboardManager) (o : Oracle) :
  filter is_close (trace_of cm o) = [].
Proof.
  pose proof (sync_allowed cm o) as H. rewrite forallb_forall in H.
  induction (trace_of cm o) as [|e t IH]; [reflexivity|].
  simpl. assert (He : allowed (enableLogging cm) e = true) by (apply H; now left).
  rewrite IH by (intros e' He'; apply H; now right).
  destruct e; try reflexivity. unfold allowed in He. simpl in He.
  now rewrite andb_false_r in He.
Qed.

Lemma loop_until_signal (ws : list Wakeup) (e : error) (rest : list Wakeup) :
  existsb is_signal ws = false ->
  forall cm,
    loop cm (ws ++ Signal e :: rest) = loop cm (ws ++ [Signal e]) /\
    filter is_close (snd (loop cm (ws ++ [Signal e]))) =
      (if is_stdout (logWriter cm) then [] else [Close (logWriter cm)]).
Proof.
  induction ws as [|w ws IH]; intros Hs cm.
  - split; [reflexivity|]. simpl.
    destruct (enableLogging cm); destruct (is_stdout (logWriter cm));
      destruct e; reflexivity.
  - destruct w as [o|e']; [|discriminate Hs]. simpl in Hs.
    specialize (IH Hs (after cm o)). destruct IH as [IH1 IH2].
    rewrite <- !app_comm_cons, !loop_tick, IH1. split; [reflexivity|].
    cbn [snd]. rewrite filter_app, cycle_never_closes, IH2, after_logWriter.
    reflexivity.
Qed.

(** X6.  Shutdown.  With a ticker that can be created, the loop stops at
    the first termination signal: [start] returns, what would have woken it
    afterwards has no effect, and the log is closed exactly once when it is
    a file and never when it is the standard output. *)
Theorem graceful_shutdown (cm : ClipboardManager) (ws : list Wakeup) (e : error)
        (rest : list Wakeup) :
  0 < syncInterval cm ->
  existsb is_signal ws = false ->
  start cm (ws ++ Signal e :: rest) = start cm (ws ++ [Signal e]) /\
  fst (start cm (ws ++ Signal e :: rest)) = Returned /\
  filter is_close (snd (start cm (ws ++ Signal e :: rest))) =
    (if is_stdout (logWriter cm) then [] else [Close (logWriter cm)]).
Proof.
  intros Hpos Hs. destruct (loop_until_signal ws e rest Hs cm) as [H1 H2].
  split; [|split].
  - rewrite !start_unfold by exact Hpos. now rewrite H1.
  - rewrite start_returns by exact Hpos.
    rewrite existsb_app. simpl. now rewrite orb_true_r.
  - rewrite start_unfold by exact Hpos. rewrite H1. cbn [snd].
    rewrite filter_app, H2. now destruct (enableLogging cm).
Qed.

Lemma graceful_shutdown_witness :
  0 < syncInterval file_backed /\
  existsb is_signal [Tick (pastes "foo" "bar")] = false /\
  start file_backed ([Tick (pastes "foo" "bar")] ++
                     Signal None :: [Tick (pastes "baz" "bar"); Signal None])
    = start file_backed ([Tick (pastes "foo" "bar")] ++ [Signal None]) /\
  fst (start file_backed ([Tick (pastes "foo" "bar")] ++
                          Signal None :: [Tick (pastes "baz" "bar"); Signal None]))
    = Returned /\
  filter is_close
    (snd (start file_backed ([Tick (pastes "foo" "bar")] ++
                             Signal None :: [Tick (pastes "baz" "bar"); Signal None])))
    = (if is_stdout (logWriter file_backed) then []
       else [Close (logWriter file_backed)]).
Proof.
  exact (conj eq_refl (conj eq_refl
           (graceful_shutdown file_backed [Tick (pastes "foo" "bar")] None
              [Tick (pastes "baz" "bar"); Signal None] eq_refl eq_refl))).
Defined.

Lemma writes_app (t1 t2 : list Event) : writes (t1 ++ t2) = writes t1 ++ writes t2.
Proof. apply filter_app. Qed.

Lemma loop_steady (ws : list Wakeup) (cm : ClipboardManager) :
  (forall o, In (Tick o) ws ->
     (fst (reads cm o) = "" \/ lastWaylandHash cm = hash (fst (reads cm o))) /\
     (snd (reads cm o) = "" \/ lastX11Hash cm = hash (snd (reads cm o)))) ->
  writes (snd (loop cm ws)) = [].
Proof.
  induction ws as [|w ws IH]; intros H; [reflexivity|].
  destruct w as [o|e].
  - rewrite loop_tick. cbn [snd]. rewrite writes_app.
    destruct (H o (or_introl eq_refl)) as [HW HX].
    destruct (steady cm o HW HX) as [S1 S2].
    rewrite S1, S2. apply IH. intros o' Ho'. apply H. now right.
  - simpl. destruct (enableLogging cm); destruct (is_stdout (logWriter cm));
      destruct e; reflexivity.
Qed.

(** X7.  A steady manager stays steady.  With a ticker that can be
    created, as long as every tick reads, on each side, nothing or content
    with the digest the manager remembers for that side, [start] never
    starts a copy command, however many ticks pass. *)
Theorem steady_forever (cm : ClipboardManager) (ws : list Wakeup) :
  0 < syncInterval cm ->
  (forall o, In (Tick o) ws ->
     (fst (reads cm o) = "" \/ lastWaylandHash cm = hash (fst (reads cm o))) /\
     (snd (reads cm o) = "" \/ lastX11Hash cm = hash (snd (reads cm o)))) ->
  writes (snd (start cm ws)) = [].
Proof.
  intros Hpos H. rewrite start_unfold by exact Hpos. cbn [snd].
  rewrite writes_app, (loop_steady ws cm H). now destruct (enableLogging cm).
Qed.

Lemma steady_forever_witness :
  0 < syncInterval (held "hello") /\
  (forall o, In (Tick o) [Tick (pastes "hello" "hello"); Tick wl_paste_times_out;
                          Tick (pastes "hello" "hello")] ->
     (fst (reads (held "hello") o) = "" \/
      lastWaylandHash (held "hello") = hash (fst (reads (held "hello") o))) /\
     (snd (reads (held "hello") o) = "" \/
      lastX11Hash (held "hello") = hash (snd (reads (held "hello") o)))) /\
  writes (snd (start (held "hello")
                 [Tick (pastes "hello" "hello"); Tick wl_paste_times_out;
                  Tick (pastes "hello" "hello")])) = [].
Proof.
  assert (H : forall o, In (Tick o) [Tick (pastes "hello" "hello");
                                     Tick wl_paste_times_out;
                                     Tick (pastes "hello" "hello")] ->
     (fst (reads (held "hello") o) = "" \/
      lastWaylandHash (held "hello") = hash (fst (reads (held "hello") o))) /\
     (snd (reads (held "hello") o) = "" \/
      lastX11Hash (held "hello") = hash (snd (reads (held "hello") o)))).
  { intros o [E|[E|[E|[]]]]; injection E as <-; split;
      first [left; reflexivity | right; reflexivity]. }
  exact (conj eq_refl (conj H (steady_forever (held "hello") _ eq_refl H))).
Defined.

(** *** Construction, configuration and startup *)

(** X8.  The log of a new manager.  With an empty [log_file] the manager
    is always built and logs to the standard output.  A manager that is
    built takes its size limit from [max_clipboard_size] and its verbosity
    from [verbose], and logs to a file only if the directory of that file
    could be created and the file opened.  Construction fails only for a
    non-empty [log_file], with one of two messages.  A path that starts
    with a tilde after expansion is opened under the home directory. *)
Theorem new_manager_log (h : Host) (config : Config) :
  (LogFile (Logging config) = "" ->
     exists cm, NewClipboardManager h config = inl cm /\ logWriter cm = Stdout) /\
  (forall cm, NewClipboardManager h config = inl cm ->
     maxClipboardSize cm = MaxClipboardSize (Timeouts_ config) /\
     enableLogging cm = Verbose (Logging config) /\
     forall path, logWriter cm = File path ->
       LogFile (Logging config) <> "" /\
       MkdirAll h (Dir h path) = None /\ OpenFile h path = None) /\
  (forall err, NewClipboardManager h config = inr err ->
     LogFile (Logging config) <> "" /\
     exists reason,
       err = ("failed to create log directory: " ++ reason)%string \/
       err = ("failed to open log file: " ++ reason)%string) /\
  (forall rest,
     LogFile (Logging config) <> "" ->
     ExpandEnv h (LogFile (Logging config)) = String "~" rest ->
     MkdirAll h (Dir h (Join h (UserHomeDir h) rest)) = None ->
     OpenFile h (Join h (UserHomeDir h) rest) = None ->
     exists cm, NewClipboardManager h config = inl cm /\
                logWriter cm = File (Join h (UserHomeDir h) rest)).
Proof.
  unfold NewClipboardManager.
  split; [|split; [|split]].
  - intros ->. rewrite neq_refl. eexists. split; reflexivity.
  - intros cm. destruct (neq (LogFile (Logging config)) "") eqn:E.
    + apply neq_true in E.
      set (p := match ExpandEnv h (LogFile (Logging config)) with
                | String "~" rest => Join h (UserHomeDir h) rest
                | _ => ExpandEnv h (LogFile (Logging config))
                end).
      destruct (MkdirAll h (Dir h p)) eqn:M; [discriminate|].
      destruct (OpenFile h p) eqn:O; [discriminate|].
      intros H. injection H as <-. cbn.
      split; [reflexivity|split; [reflexivity|]].
      intros path Hp. injection Hp as <-. auto.
    + intros H. injection H as <-. cbn.
      split; [reflexivity|split; [reflexivity|]].
      intros path Hp. discriminate Hp.
  - intros err. destruct (neq (LogFile (Logging config)) "") eqn:E; [|discriminate].
    apply neq_true in E.
    destruct (MkdirAll h _) as [r|].
    + intros Hr. injection Hr as <-. split; [exact E|]. exists r. now left.
    + destruct (OpenFile h _) as [r|]; [|discriminate].
      intros Hr. injection Hr as <-. split; [exact E|]. exists r. now right.
  - intros rest Hne He Hm Ho. apply neq_true in Hne.
    rewrite Hne, He, Hm, Ho. eexists. split; reflexivity.
Qed.

(** X9.  Durations.  For [interval_ms] within 9223372036854 and
    [command_timeout] within 9223372036 in absolute value the two durations
    of a new manager are exact, in nanoseconds, so the interval is positive
    exactly when [interval_ms] is at least 1. *)
Theorem durations_exact (h : Host) (config : Config) (cm : ClipboardManager) :
  NewClipboardManager h config = inl cm ->
  - 9223372036854 <= IntervalMs (Sync config) <= 9223372036854 ->
  - 9223372036 <= CommandTimeout (Timeouts_ config) <= 9223372036 ->
  syncInterval cm = IntervalMs (Sync config) * 1000000 /\
  commandTimeout cm = CommandTimeout (Timeouts_ config) * 1000000000 /\
  (0 < syncInterval cm <-> 1 <= IntervalMs (Sync config)).
Proof.
  intros H Hi Ht.
  assert (E : syncInterval cm = int64 (IntervalMs (Sync config) * Millisecond) /\
              commandTimeout cm = int64 (CommandTimeout (Timeouts_ config) * Second)).
  { unfold NewClipboardManager in H.
    destruct (neq (LogFile (Logging config)) "").
    - destruct (MkdirAll h _); [discriminate|].
      destruct (OpenFile h _); [discriminate|].
      injection H as <-. auto.
    - injection H as <-. auto. }
  destruct E as [E1 E2]. rewrite E1, E2.
  unfold int64, Millisecond, Second.
  assert (M1 : (IntervalMs (Sync config) * 1000000 + 2 ^ 63) mod 2 ^ 64
               = IntervalMs (Sync config) * 1000000 + 2 ^ 63)
    by (apply Z.mod_small; lia).
  assert (M2 : (CommandTimeout (Timeouts_ config) * 1000000000 + 2 ^ 63) mod 2 ^ 64
               = CommandTimeout (Timeouts_ config) * 1000000000 + 2 ^ 63)
    by (apply Z.mod_small; lia).
  rewrite M1, M2. repeat split; lia.
Qed.

Lemma durations_exact_witness :
  NewClipboardManager desktop_host stdout_config = inl fresh /\
  - 9223372036854 <= IntervalMs (Sync stdout_config) <= 9223372036854 /\
  - 9223372036 <= CommandTimeout (Timeouts_ stdout_config) <= 9223372036 /\
  syncInterval fresh = IntervalMs (Sync stdout_config) * 1000000 /\
  commandTimeout fresh = CommandTimeout (Timeouts_ stdout_config) * 1000000000 /\
  (0 < syncInterval fresh <-> 1 <= IntervalMs (Sync stdout_config)).
Proof.
  assert (Hi : - 9223372036854 <= IntervalMs (Sync stdout_config) <= 9223372036854)
    by (cbn; lia).
  assert (Ht : - 9223372036 <= CommandTimeout (Timeouts_ stdout_config) <= 9223372036)
    by (cbn; lia).
  exact (conj eq_refl (conj Hi (conj Ht
           (durations_exact desktop_host stdout_config fresh eq_refl Hi Ht)))).
Defined.

(** Beyond that range the multiplication wraps around. *)
Example interval_wraps :
  int64 (9223372036855 * Millisecond) = - 9223372036854551616.
Proof. vm_compute. reflexivity. Qed.

Lemma LoadConfig_paths (h : Host) :
  LoadConfig h =
    match find (Stat h) (configPaths h) with
    | Some configPath =>
        if neq configPath "" then
          match DecodeFile h configPath with
          | inr err => inr ("failed to parse config: " ++ err)%string
          | inl config => inl config
          end
        else inl (getDefaultConfig h)
    | None => inl (getDefaultConfig h)
    end.
Proof. reflexivity. Qed.

(** X10.  Loading the configuration.  Without any of the three candidate
    files the defaults are returned.  A configuration that is returned is
    either the defaults or exactly what one candidate file decoded to: the
    defaults are not merged into a file.  An error is returned only for a
    candidate file that exists and does not parse, and the user's file
    under .config, when it exists, decides alone. *)
Theorem load_config_cases (h : Host) :
  ((forall p, In p (configPaths h) -> Stat h p = false) ->
     LoadConfig h = inl (getDefaultConfig h)) /\
  (forall config, LoadConfig h = inl config ->
     config = getDefaultConfig h \/
     exists p, In p (configPaths h) /\ Stat h p = true /\ DecodeFile h p = inl config) /\
  (forall err, LoadConfig h = inr err ->
     exists p reason,
       In p (configPaths h) /\ Stat h p = true /\ DecodeFile h p = inr reason /\
       err = ("failed to parse config: " ++ reason)%string) /\
  (forall p, nth_error (configPaths h) 0 = Some p -> p <> "" -> Stat h p = true ->
     LoadConfig h = match DecodeFile h p with
                    | inl config => inl config
                    | inr reason => inr ("failed to parse config: " ++ reason)%string
                    end).
Proof.
  rewrite LoadConfig_paths.
  split; [|split; [|split]].
  - intros Hn. destruct (find (Stat h) (configPaths h)) as [p|] eqn:F; [|reflexivity].
    apply find_some in F. destruct F as [Hin Hs]. rewrite (Hn p Hin) in Hs. discriminate.
  - intros config. destruct (find (Stat h) (configPaths h)) as [p|] eqn:F.
    + apply find_some in F. destruct F as [Hin Hs].
      destruct (neq p ""); [|intros H; injection H as <-; now left].
      destruct (DecodeFile h p) as [c|r] eqn:D; [|discriminate].
      intros H. injection H as <-. right. exists p. auto.
    + intros H. injection H as <-. now left.
  - intros err. destruct (find (Stat h) (configPaths h)) as [p|] eqn:F; [|discriminate].
    apply find_some in F. destruct F as [Hin Hs].
    destruct (neq p ""); [|discriminate].
    destruct (DecodeFile h p) as [c|r] eqn:D; [discriminate|].
    intros H. injection H as <-. exists p, r. auto.
  - intros p Hp Hne Hs. unfold configPaths in *. cbn in Hp. injection Hp as Hp.
    cbn [find]. rewrite Hp, Hs. apply neq_true in Hne. rewrite Hne.
    destruct (DecodeFile h p); reflexivity.
Qed.

Example configured_host_is_not_merged :
  exists config,
    LoadConfig configured_host = inl config /\
    IntervalMs (Sync config) = 0 /\ MaxClipboardSize (Timeouts_ config) = 1024.
Proof. eexists. split; [reflexivity|]. split; reflexivity. Qed.

Lemma LoadConfig_decoding (f : Config -> Config) (h : Host) :
  LoadConfig (decoding f h) =
    match LoadConfig h with
    | inl config =>
        match find (Stat h) (configPaths h) with
        | Some p => if neq p "" then inl (f config) else inl config
        | None => inl config
        end
    | inr err => inr err
    end.
Proof.
  rewrite !LoadConfig_paths.
  change (configPaths (decoding f h)) with (configPaths h).
  change (Stat (decoding f h)) with (Stat h).
  change (getDefaultConfig (decoding f h)) with (getDefaultConfig h).
  destruct (find (Stat h) (configPaths h)) as [p|]; [|reflexivity].
  destruct (neq p ""); [|reflexivity].
  cbn [DecodeFile decoding].
  destruct (DecodeFile h p); reflexivity.
Qed.

(** X11.  [enable_logging] is not used.  Whatever value the configuration
    file gives to [enable_logging], the process ends the same way and
    leaves the same trace; the log is governed by [verbose] alone. *)
Theorem enable_logging_is_ignored (h : Host) (b : bool) (ws : list Wakeup) :
  main (decoding (with_EnableLogging b) h) ws = main h ws.
Proof.
  unfold main. rewrite LoadConfig_decoding.
  change (LookPath (decoding (with_EnableLogging b) h)) with (LookPath h).
  destruct (find (fun tool => negb (LookPath h tool)) tools); [reflexivity|].
  destruct (LoadConfig h) as [c|e]; [|reflexivity].
  destruct (find (Stat h) (configPaths h)) as [p|]; [|reflexivity].
  destruct (neq p ""); reflexivity.
Qed.

(** X12.  A failed startup starts nothing.  When [main] ends with status 1
    no clipboard command was started, and what would have woken the loop
    plays no part. *)
Theorem failed_startup_starts_nothing (h : Host) (ws : list Wakeup) :
  fst (main h ws) = Exited 1 ->
  execs (snd (main h ws)) = [] /\ forall ws', main h ws' = main h ws.
Proof.
  unfold main.
  destruct (find (fun tool => negb (LookPath h tool)) tools); [auto|].
  destruct (LoadConfig h) as [c|e].
  - destruct (NewClipboardManager h c) as [m|e']; [|auto].
    destruct (start m ws) as [[] t]; discriminate.
  - destruct (NewClipboardManager h (getDefaultConfig h)) as [m|e']; [|auto].
    destruct (start m ws) as [[] t]; discriminate.
Qed.

Lemma failed_startup_starts_nothing_witness :
  fst (main readonly_host [Tick (pastes "foo" "bar")]) = Exited 1 /\
  execs (snd (main readonly_host [Tick (pastes "foo" "bar")])) = [] /\
  forall ws', main readonly_host ws' = main readonly_host [Tick (pastes "foo" "bar")].
Proof.
  exact (conj eq_refl
           (failed_startup_starts_nothing readonly_host [Tick (pastes "foo" "bar")] eq_refl)).
Defined.



(* ================================================================== *)
(** ** Properties of the earlier bridge *)

Lemma lbind_fst {A B : Type} (m : Legacy.IO A) (k : A -> Legacy.IO B)
      (o : Legacy.Oracle) :
  fst (Legacy.bind m k o) = fst (k (fst (m o)) o).
Proof. unfold Legacy.bind. destruct (m o) as [a t1]. simpl. now destruct (k a o). Qed.

Lemma lbind_snd {A B : Type} (m : Legacy.IO A) (k : A -> Legacy.IO B)
      (o : Legacy.Oracle) :
  snd (Legacy.bind m k o) = snd (m o) ++ snd (k (fst (m o)) o).
Proof. unfold Legacy.bind. destruct (m o) as [a t1]. simpl. now destruct (k a o). Qed.

Lemma len_positive (c : string) : (len c >? 0) = neq c "".
Proof. destruct c; reflexivity. Qed.

Lemma usable_true (r : string * error) :
  usable r = true -> snd r = None /\ fst r <> "".
Proof.
  unfold usable. intros H. apply andb_prop in H. destruct H as [H1 H2].
  apply neq_true in H2. split; [|exact H2]. now destruct (snd r).
Qed.

Lemma usable_false (r : string * error) :
  usable r = false -> snd r <> None \/ fst r = "".
Proof.
  unfold usable. destruct (snd r); [left; discriminate|].
  cbn. intros H. right. now apply neq_false.
Qed.

Lemma legacy_getX11_eq (o : Legacy.Oracle) :
  Legacy.getX11Clipboard o =
    if usable (o Legacy.XclipUtf8)
    then (fst (o Legacy.XclipUtf8), [Legacy.Exec Legacy.XclipUtf8 ""])
    else (if usable (o Legacy.XclipString) then fst (o Legacy.XclipString) else "",
          [Legacy.Exec Legacy.XclipUtf8 ""; Legacy.Exec Legacy.XclipString ""]).
Proof.
  unfold Legacy.getX11Clipboard, Legacy.bind, Legacy.Output, Legacy.ret, usable.
  destruct (o Legacy.XclipUtf8) as [u [eu|]]; destruct u; cbn;
    destruct (o Legacy.XclipString) as [s [es|]]; destruct s; reflexivity.
Qed.

(** X13.  The X11 read of the earlier bridge.  It returns the output of
    the UTF8_STRING target when that command succeeded and printed
    something, and then does not run the STRING target; otherwise the
    output of the STRING target under the same condition; otherwise
    nothing.  So the output of a failed command is never returned, and
    what is returned is never empty unless both targets gave nothing. *)
Theorem legacy_x11_fallback (o : Legacy.Oracle) :
  (fst (Legacy.getX11Clipboard o) <> "" ->
     (fst (Legacy.getX11Clipboard o) = fst (o Legacy.XclipUtf8) /\
      snd (o Legacy.XclipUtf8) = None /\
      snd (Legacy.getX11Clipboard o) = [Legacy.Exec Legacy.XclipUtf8 ""]) \/
     (fst (Legacy.getX11Clipboard o) = fst (o Legacy.XclipString) /\
      snd (o Legacy.XclipString) = None /\
      (snd (o Legacy.XclipUtf8) <> None \/ fst (o Legacy.XclipUtf8) = ""))) /\
  (snd (o Legacy.XclipUtf8) = None -> fst (o Legacy.XclipUtf8) <> "" ->
     Legacy.getX11Clipboard o
       = (fst (o Legacy.XclipUtf8), [Legacy.Exec Legacy.XclipUtf8 ""])) /\
  (fst (Legacy.getX11Clipboard o) = "" ->
     (snd (o Legacy.XclipUtf8) <> None \/ fst (o Legacy.XclipUtf8) = "") /\
     (snd (o Legacy.XclipString) <> None \/ fst (o Legacy.XclipString) = "")).
Proof.
  rewrite legacy_getX11_eq.
  destruct (usable (o Legacy.XclipUtf8)) eqn:U.
  - destruct (usable_true _ U) as [U1 U2]. cbn [fst snd].
    split; [|split].
    + intros _. left. auto.
    + reflexivity.
    + intros E. contradiction.
  - pose proof (usable_false _ U) as U'. cbn [fst snd].
    destruct (usable (o Legacy.XclipString)) eqn:S.
    + destruct (usable_true _ S) as [S1 S2].
      split; [|split].
      * intros _. right. auto.
      * intros H1 H2. destruct U' as [U'|U']; contradiction.
      * intros E. contradiction.
    + pose proof (usable_false _ S) as S'.
      split; [|split].
      * intros E. now contradiction E.
      * intros H1 H2. destruct U' as [U'|U']; contradiction.
      * intros _. auto.
Qed.

Lemma neq_sym (a b : string) : neq a b = neq b a.
Proof. unfold neq. now rewrite String.eqb_sym. Qed.

Lemma legacy_copies_app (t1 t2 : list Legacy.Event) :
  legacy_copies (t1 ++ t2) = legacy_copies t1 ++ legacy_copies t2.
Proof. apply flat_map_app. Qed.

Lemma legacy_getX11_copies (o : Legacy.Oracle) :
  legacy_copies (snd (Legacy.getX11Clipboard o)) = [].
Proof.
  rewrite legacy_getX11_eq. now destruct (usable (o Legacy.XclipUtf8)).
Qed.

Lemma legacy_setX11_copies (c : string) (o : Legacy.Oracle) :
  legacy_copies (snd (Legacy.setX11Clipboard c o)) = [(ToX11, c)].
Proof. reflexivity. Qed.

Lemma legacy_setWayland_copies (c : string) (o : Legacy.Oracle) :
  legacy_copies (snd (Legacy.setWaylandClipboard c o)) = [(ToWayland, c)].
Proof. reflexivity. Qed.

Ltac lnorm :=
  repeat (progress
    (rewrite ?lbind_snd, ?lbind_fst, ?legacy_copies_app, ?legacy_getX11_copies,
             ?legacy_setX11_copies, ?legacy_setWayland_copies,
             ?neq_refl, ?andb_false_r, ?andb_true_r;
     cbn [fst snd Legacy.ret Legacy.emit Legacy.Output Legacy.Run
          Legacy.setX11Clipboard Legacy.setWaylandClipboard
          app andb negb legacy_copies flat_map legacy_copy_of])).

Section LegacyPass.

Variable st : Legacy.State.
Variable o : Legacy.Oracle.

Local Abbreviation W := (fst (Legacy.reads o)).
Local Abbreviation X := (snd (Legacy.reads o)).

(** The copies of one pass. *)
Lemma legacy_pass_copies :
  legacy_copies (snd (Legacy.iteration st o)) =
    (if legacy_pushes_x11 st W X then [(ToX11, W)] else []) ++
    (if legacy_pushes_wayland st W X then [(ToWayland, X)] else []).
Proof.
  unfold Legacy.iteration, Legacy.reads, legacy_pushes_wayland, legacy_pushes_x11.
  cbn [fst snd]. rewrite !lbind_snd, ?lbind_fst. cbn [Legacy.Output fst snd].
  generalize (fst (o Legacy.WlPaste)), (fst (Legacy.getX11Clipboard o)).
  intros w x. rewrite !legacy_copies_app, legacy_getX11_copies, !len_positive.
  rewrite (neq_sym x w).
  destruct st as [lw lx]. cbn [fst snd].
  destruct (neq w "") eqn:E1; destruct (neq w lw) eqn:E2;
    destruct (neq w x) eqn:E3; lnorm.
  all: rewrite ?len_positive, ?(neq_sym x w), ?E3.
  all: try (destruct (neq x "") eqn:E4; destruct (neq x lx) eqn:E5; lnorm).
  all: reflexivity.
Qed.

(** The state one pass leaves. *)
Lemma legacy_pass_state :
  fst (Legacy.iteration st o) =
    (if legacy_pushes_wayland st W X then X
     else if neq W "" then W else fst st,
     if legacy_pushes_x11 st W X then W
     else if neq X "" then X else snd st).
Proof.
  unfold Legacy.iteration, Legacy.reads, legacy_pushes_wayland, legacy_pushes_x11.
  cbn [fst snd]. rewrite !lbind_fst. cbn [Legacy.Output fst snd].
  generalize (fst (o Legacy.WlPaste)), (fst (Legacy.getX11Clipboard o)).
  intros w x. rewrite !len_positive. rewrite (neq_sym x w).
  destruct st as [lw lx]. cbn [fst snd].
  destruct (neq w "") eqn:E1; destruct (neq w lw) eqn:E2;
    destruct (neq w x) eqn:E3; lnorm.
  all: rewrite ?len_positive, ?(neq_sym x w), ?E3.
  all: try (destruct (neq x "") eqn:E4; destruct (neq x lx) eqn:E5; lnorm).
  all: try (apply neq_false in E2; subst lw).
  all: try (apply neq_false in E5; subst lx).
  all: try reflexivity.
  all: try (apply neq_false in E3; subst x; rewrite ?E1, ?neq_refl; lnorm;
            try reflexivity).
Qed.

End LegacyPass.

(** X14.  One pass of the earlier bridge.  It starts at most one copy
    command; what it copies is not empty and is what it read on the other
    side; and there is no size limit: a Wayland content that is not empty
    and differs from the last one and from the X11 content is fed to
    [xclip -i] whatever its length. *)
Theorem legacy_pass (st : Legacy.State) (o : Legacy.Oracle) :
  (List.length (legacy_copies (snd (Legacy.iteration st o))) <= 1)%nat /\
  (forall side c, In (side, c) (legacy_copies (snd (Legacy.iteration st o))) ->
     c <> "" /\
     ((side = ToX11 /\ c = fst (Legacy.reads o)) \/
      (side = ToWayland /\ c = snd (Legacy.reads o)))) /\
  (fst (Legacy.reads o) <> "" ->
   fst (Legacy.reads o) <> fst st ->
   fst (Legacy.reads o) <> snd (Legacy.reads o) ->
   legacy_copies (snd (Legacy.iteration st o)) = [(ToX11, fst (Legacy.reads o))]).
Proof.
  rewrite legacy_pass_copies.
  set (W := fst (Legacy.reads o)). set (X := snd (Legacy.reads o)).
  unfold legacy_pushes_wayland.
  destruct (legacy_pushes_x11 st W X) eqn:P; cbn [negb andb].
  - split; [simpl; lia|]. split.
    + intros side c [H|[]]. injection H as <- <-.
      unfold legacy_pushes_x11 in P. rewrite len_positive in P.
      apply andb_prop in P. destruct P as [P _].
      apply andb_prop in P. destruct P as [P _]. apply neq_true in P. auto.
    + reflexivity.
  - destruct ((len X >? 0) && neq X (snd st) && neq X W) eqn:Q.
    + split; [simpl; lia|]. split.
      * intros side c [H|[]]. injection H as <- <-.
        rewrite len_positive in Q.
        apply andb_prop in Q. destruct Q as [Q _].
        apply andb_prop in Q. destruct Q as [Q _]. apply neq_true in Q. auto.
      * intros H1 H2 H3. exfalso. unfold legacy_pushes_x11 in P.
        rewrite len_positive in P. apply neq_true in H1, H2, H3.
        rewrite H1, H2, H3 in P. discriminate.
    + split; [simpl; lia|]. split.
      * intros side c [].
      * intros H1 H2 H3. exfalso. unfold legacy_pushes_x11 in P.
        rewrite len_positive in P. apply neq_true in H1, H2, H3.
        rewrite H1, H2, H3 in P. discriminate.
Qed.

(** *** The manager and the earlier bridge *)

Lemma copies_execs (t : list Event) : copies (execs t) = copies t.
Proof.
  induction t as [|e t IH]; [reflexivity|].
  destruct e as [tool c| | |]; simpl; rewrite ?IH; reflexivity.
Qed.

Lemma sync_copies (cm : ClipboardManager) (o : Oracle) :
  copies (trace_of cm o) =
    (if pushes_x11 cm (fst (reads cm o)) (snd (reads cm o))
     then [(ToX11, fst (reads cm o))] else []) ++
    (if pushes_wayland cm (fst (reads cm o)) (snd (reads cm o))
     then [(ToWayland, snd (reads cm o))] else []).
Proof.
  rewrite <- copies_execs, sync_execs.
  destruct (pushes_x11 cm _ _); destruct (pushes_wayland cm _ _); reflexivity.
Qed.

Lemma digest_compare (a b : string) :
  (hash a = hash b -> a = b) -> neq (hash a) (hash b) = neq a b.
Proof.
  intros Hinj. destruct (neq a b) eqn:E.
  - apply neq_true. apply neq_true in E. auto.
  - apply neq_false in E. subst b. apply neq_refl.
Qed.

Lemma changed_alike (f c a : string) :
  tracks f c -> (hash a = hash c -> a = c) ->
  neq (hash a) f && neq a "" = neq a "" && neq a c.
Proof.
  intros [-> | [-> ->]] Hinj.
  - rewrite (digest_compare a c Hinj). apply andb_comm.
  - assert (H : neq (hash a) "" = true) by (apply neq_true, hash_not_empty).
    rewrite H. cbn [andb]. now destruct (neq a "").
Qed.

(** One cycle against one pass: with fingerprints that stand for what the
    earlier bridge remembers, the same reads, and no shared digest among
    the contents involved, both make the same copies and the fingerprints
    stand again for what the bridge remembers. *)
Lemma cycle_agrees_with_pass (cm : ClipboardManager) (o : Oracle)
      (st : Legacy.State) (lo : Legacy.Oracle) :
  reads cm o = Legacy.reads lo ->
  tracks (lastWaylandHash cm) (fst st) ->
  tracks (lastX11Hash cm) (snd st) ->
  distinct_digests [fst (Legacy.reads lo); snd (Legacy.reads lo); fst st; snd st] ->
  copies (trace_of cm o) = legacy_copies (snd (Legacy.iteration st lo)) /\
  tracks (lastWaylandHash (after cm o)) (fst (fst (Legacy.iteration st lo))) /\
  tracks (lastX11Hash (after cm o)) (snd (fst (Legacy.iteration st lo))).
Proof.
  intros Hr Tw Tx Hd.
  rewrite sync_copies, sync_after, legacy_pass_copies, legacy_pass_state, Hr.
  set (W := fst (Legacy.reads lo)) in *. set (X := snd (Legacy.reads lo)) in *.
  cbn [lastWaylandHash lastX11Hash fst snd].
  assert (Iwl : hash W = hash (fst st) -> W = fst st).
  { apply Hd; simpl; auto. }
  assert (Ixl : hash X = hash (snd st) -> X = snd st).
  { apply Hd; simpl; auto. }
  assert (Iwx : hash W = hash X -> W = X).
  { apply Hd; simpl; auto. }
  assert (Ixw : hash X = hash W -> X = W).
  { apply Hd; simpl; auto. }
  assert (P : pushes_x11 cm W X = legacy_pushes_x11 st W X).
  { unfold pushes_x11, legacy_pushes_x11.
    rewrite (changed_alike _ _ W Tw Iwl), (digest_compare W X Iwx), len_positive.
    reflexivity. }
  assert (Q : pushes_wayland cm W X = legacy_pushes_wayland st W X).
  { unfold pushes_wayland, legacy_pushes_wayland. rewrite P.
    rewrite <- !andb_assoc. f_equal. rewrite !andb_assoc.
    rewrite (changed_alike _ _ X Tx Ixl), (digest_compare X W Ixw), len_positive.
    reflexivity. }
  rewrite P, Q. split; [reflexivity|]. split.
  - destruct (legacy_pushes_wayland st W X); [now left|].
    destruct (neq W ""); [now left|exact Tw].
  - destruct (legacy_pushes_x11 st W X); [now left|].
    destruct (neq X ""); [now left|exact Tx].
Qed.

Lemma reads_after (cm : ClipboardManager) (o1 o : Oracle) :
  reads (after cm o1) o = reads cm o.
Proof.
  unfold reads. rewrite !getWayland_result, !getX11_result, (sync_after cm o1).
  reflexivity.
Qed.

Lemma copies_app (t1 t2 : list Event) : copies (t1 ++ t2) = copies t1 ++ copies t2.
Proof. apply flat_map_app. Qed.

Lemma pass_remembers_reads (st : Legacy.State) (lo : Legacy.Oracle) (C : list string) :
  In (fst st) C -> In (snd st) C ->
  In (fst (Legacy.reads lo)) C -> In (snd (Legacy.reads lo)) C ->
  In (fst (fst (Legacy.iteration st lo))) C /\
  In (snd (fst (Legacy.iteration st lo))) C.
Proof.
  intros H1 H2 H3 H4. rewrite legacy_pass_state. cbn [fst snd]. split.
  - destruct (legacy_pushes_wayland st _ _); [assumption|].
    now destruct (neq (fst (Legacy.reads lo)) "").
  - destruct (legacy_pushes_x11 st _ _); [assumption|].
    now destruct (neq (snd (Legacy.reads lo)) "").
Qed.

Lemma runs_agree (C : list string) (pairs : list (Oracle * Legacy.Oracle)) :
  distinct_digests C ->
  forall (cm : ClipboardManager) (st : Legacy.State),
    tracks (lastWaylandHash cm) (fst st) ->
    tracks (lastX11Hash cm) (snd st) ->
    In (fst st) C -> In (snd st) C ->
    (forall o lo, In (o, lo) pairs ->
       reads cm o = Legacy.reads lo /\
       In (fst (Legacy.reads lo)) C /\ In (snd (Legacy.reads lo)) C) ->
    copies (snd (loop cm (map (fun p => Tick (fst p)) pairs))) =
    legacy_copies (snd (Legacy.passes st (map snd pairs))).
Proof.
  intros HC. induction pairs as [|[o lo] rest IH]; intros cm st Tw Tx Mw Mx Hp.
  - reflexivity.
  - destruct (Hp o lo (or_introl eq_refl)) as [Hr [MW MX]].
    assert (Hd : distinct_digests [fst (Legacy.reads lo); snd (Legacy.reads lo);
                                   fst st; snd st]).
    { intros a b Ha Hb. apply HC.
      - simpl in Ha. destruct Ha as [<-|[<-|[<-|[<-|[]]]]]; assumption.
      - simpl in Hb. destruct Hb as [<-|[<-|[<-|[<-|[]]]]]; assumption. }
    destruct (cycle_agrees_with_pass cm o st lo Hr Tw Tx Hd) as [E [Tw' Tx']].
    destruct (pass_remembers_reads st lo C Mw Mx MW MX) as [Mw' Mx'].
    cbn [map fst snd]. rewrite loop_tick. cbn [snd Legacy.passes].
    destruct (Legacy.iteration st lo) as [st1 t1] eqn:I. cbn [fst snd] in *.
    specialize (IH (after cm o) st1 Tw' Tx' Mw' Mx').
    destruct (Legacy.passes st1 (map snd rest)) as [st2 t2]. cbn [snd] in *.
    rewrite copies_app, legacy_copies_app, E. f_equal. apply IH.
    intros o' lo' Hin. rewrite reads_after. apply Hp. now right.
Qed.

(** X15.  The manager runs as the earlier bridge did.  Start both, let
    every cycle of the manager read what the matching pass of the bridge
    reads, and let no two different contents among those read, the empty
    one included, share a digest.  Then, with a ticker that can be
    created, the manager makes exactly the copies the bridge makes, in the
    same order, however long they run. *)
Theorem manager_runs_as_legacy (h : Host) (config : Config) (cm : ClipboardManager)
        (C : list string) (pairs : list (Oracle * Legacy.Oracle)) :
  NewClipboardManager h config = inl cm ->
  0 < syncInterval cm ->
  distinct_digests C ->
  In "" C ->
  (forall o lo, In (o, lo) pairs ->
     reads cm o = Legacy.reads lo /\
     In (fst (Legacy.reads lo)) C /\ In (snd (Legacy.reads lo)) C) ->
  copies (snd (start cm (map (fun p => Tick (fst p)) pairs))) =
  legacy_copies (snd (Legacy.main (map snd pairs))).
Proof.
  intros Hn Hpos HC He Hp.
  assert (F : lastWaylandHash cm = "" /\ lastX11Hash cm = "").
  { unfold NewClipboardManager in Hn.
    destruct (neq (LogFile (Logging config)) "").
    - destruct (MkdirAll h _); [discriminate|].
      destruct (OpenFile h _); [discriminate|].
      injection Hn as <-. auto.
    - injection Hn as <-. auto. }
  destruct F as [F1 F2].
  pose proof (runs_agree C pairs HC cm ("", "")) as R. cbn [fst snd] in R.
  specialize (R (or_intror (conj F1 eq_refl)) (or_intror (conj F2 eq_refl)) He He Hp).
  rewrite start_unfold by exact Hpos. unfold Legacy.main.
  destruct (Legacy.passes _ _) as [st t'].
  cbn [snd] in *. rewrite copies_app, R.
  now destruct (enableLogging cm).
Qed.

Lemma distinct_digests_check (l : list string) :
  distinct_digestsb l = true -> distinct_digests l.
Proof.
  unfold distinct_digestsb, distinct_digests. intros H a b Ha Hb E.
  rewrite forallb_forall in H. specialize (H a Ha).
  rewrite forallb_forall in H. specialize (H b Hb).
  rewrite E, String.eqb_refl in H. cbn in H. now apply String.eqb_eq.
Qed.

Lemma manager_runs_as_legacy_witness :
  NewClipboardManager desktop_host stdout_config = inl fresh /\
  0 < syncInterval fresh /\
  distinct_digests [""; "foo"; "bar"] /\
  In "" [""; "foo"; "bar"] /\
  copies (snd (start fresh
                 (map (fun p => Tick (fst p))
                      [(pastes "foo" "bar",
                        legacy_pastes ("foo", None) ("bar", None) ("", None));
                       (pastes "foo" "foo",
                        legacy_pastes ("foo", None) ("", Some "exit status 1")
                                      ("foo", None))]))) =
  legacy_copies
    (snd (Legacy.main
            (map snd
                 [(pastes "foo" "bar",
                   legacy_pastes ("foo", None) ("bar", None) ("", None));
                  (pastes "foo" "foo",
                   legacy_pastes ("foo", None) ("", Some "exit status 1")
                                 ("foo", None))]))).
Proof.
  assert (HC : distinct_digests [""; "foo"; "bar"]).
  { apply distinct_digests_check. vm_compute. reflexivity. }
  assert (He : In "" [""; "foo"; "bar"]) by (now left).
  assert (Hp : forall o lo,
             In (o, lo)
                [(pastes "foo" "bar",
                  legacy_pastes ("foo", None) ("bar", None) ("", None));
                 (pastes "foo" "foo",
                  legacy_pastes ("foo", None) ("", Some "exit status 1")
                                ("foo", None))] ->
             reads fresh o = Legacy.reads lo /\
             In (fst (Legacy.reads lo)) [""; "foo"; "bar"] /\
             In (snd (Legacy.reads lo)) [""; "foo"; "bar"]).
  { intros o lo [E|[E|[]]]; injection E as <- <-; cbn; auto 6. }
  exact (conj eq_refl (conj eq_refl (conj HC (conj He
           (manager_runs_as_legacy desktop_host stdout_config fresh
              [""; "foo"; "bar"] _ eq_refl eq_refl HC He Hp))))).
Defined.
